(** * PDF text extraction service: a shallow embedding of [app.py]

    The service is a thin Flask application: two extractor wrappers
    ([extract_text_with_pdfplumber], [extract_text_with_pypdf2]), a fetcher
    ([download_pdf]) and two request handlers ([extract_pdf],
    [extract_multiple_pdfs]).

    Python values are modelled as follows.
    - [str] is a sequence of Unicode code points, [bytes] a sequence of
      bytes; [len] is [length].
    - A JSON value, as produced by [request.get_json()] and consumed by
      [jsonify], is the inductive type [json]; a [dict] keeps its insertion
      order and is an association list.
    - Exceptions and log records are effects: a computation yields the list
      of events it emitted, in order, and either the exception it raised or
      its value.
    - The third-party libraries ([requests], [pdfplumber], [PyPDF2]) are
      parameters of the development: each call is recorded as an event and
      its outcome is given by the parameter, as a function of the call's
      arguments. *)

From Stdlib Require Import List ZArith NArith Bool String Ascii DecimalString Lia.
Import ListNotations.
Abbreviation length := List.length.
Open Scope string_scope.
Open Scope list_scope.

Set Implicit Arguments.
Set Warnings "-register-all".

(** ** Python strings and bytes *)

Definition char := N.
Definition str := list char.
Definition bytes := list Byte.byte.

(** A source literal, character by character. *)
Definition lit (s : string) : str := map N_of_ascii (list_ascii_of_string s).

(** [Py_UNICODE_ISSPACE]: the characters removed by [str.strip()]. *)
Definition isspace (c : char) : bool :=
  (((9 <=? c) && (c <=? 13)) || ((28 <=? c) && (c <=? 32))
   || (c =? 133) || (c =? 160) || (c =? 5760)
   || ((8192 <=? c) && (c <=? 8202))
   || (c =? 8232) || (c =? 8233) || (c =? 8239) || (c =? 8287)
   || (c =? 12288))%N.

Fixpoint lstrip (s : str) : str :=
  match s with
  | c :: r => if isspace c then lstrip r else s
  | [] => []
  end.

Definition rstrip (s : str) : str := rev (lstrip (rev s)).

(** [s.strip()]: leading whitespace is skipped first, then trailing. *)
Definition strip (s : str) : str := rstrip (lstrip s).

Definition newline : str := [10%N].

(** A string with no leading whitespace. *)
Definition starts_clean (s : str) : Prop :=
  match s with
  | [] => True
  | c :: _ => isspace c = false
  end.

Fixpoint str_eqb (a b : str) : bool :=
  match a, b with
  | [], [] => true
  | x :: a', y :: b' => (x =? y)%N && str_eqb a' b'
  | _, _ => false
  end.

Fixpoint startswith (p s : str) : bool :=
  match p, s with
  | [], _ => true
  | x :: p', y :: s' => (x =? y)%N && startswith p' s'
  | _ :: _, [] => false
  end.

(** [p in s] for two strings: substring test. *)
Fixpoint str_contains (p s : str) : bool :=
  startswith p s ||
  match s with
  | [] => false
  | _ :: s' => str_contains p s'
  end.

(** [s.lower()] on the ISO-8859-1 characters of an HTTP header value. *)
Definition lower_ascii (a : ascii) : ascii :=
  let n := N_of_ascii a in
  if (((65 <=? n) && (n <=? 90))
      || ((192 <=? n) && (n <=? 222) && negb (n =? 215)))%N
  then ascii_of_N (n + 32) else a.

Fixpoint lower (s : string) : string :=
  match s with
  | EmptyString => EmptyString
  | String a r => String (lower_ascii a) (lower r)
  end.

(** ** JSON values *)

Inductive json : Type :=
| JNull                                  (* None *)
| JBool (b : bool)
| JInt (z : Z)
| JFloat (bits : Z)                      (* IEEE-754 binary64 bit pattern *)
| JStr (s : str)
| JList (l : list json)
| JDict (d : list (str * json)).

(** Python truthiness, [bool(v)]. *)
Definition truthy (v : json) : bool :=
  match v with
  | JNull => false
  | JBool b => b
  | JInt z => negb (z =? 0)%Z
  | JFloat bits => negb ((bits =? 0)%Z || (bits =? 2 ^ 63)%Z)
  | JStr s => match s with [] => false | _ => true end
  | JList l => match l with [] => false | _ => true end
  | JDict d => match d with [] => false | _ => true end
  end.

Fixpoint dict_get (k : str) (d : list (str * json)) : option json :=
  match d with
  | [] => None
  | (k', v) :: r => if str_eqb k k' then Some v else dict_get k r
  end.

(** [k == v] for a string [k] and an arbitrary value [v]. *)
Definition str_equals (k : str) (v : json) : bool :=
  match v with
  | JStr s => str_eqb k s
  | _ => false
  end.

Definition is_list (v : json) : bool :=
  match v with
  | JList _ => true
  | _ => false
  end.

(** A dict literal: the keys are source literals. *)
Definition dict (fields : list (string * json)) : json :=
  JDict (map (fun kv => (lit (fst kv), snd kv)) fields).

Definition jstr (s : string) : json := JStr (lit s).
Definition jlen (n : nat) : json := JInt (Z.of_nat n).

(** ** Effects: events, exceptions *)

(** An exception object: its class and [str(e)]. *)
Inductive exn : Type :=
| Exn (cls : string) (msg : str).

Definition exn_str (e : exn) : str :=
  match e with
  | Exn _ msg => msg
  end.

Inductive level : Type := INFO | WARNING | ERROR.

(** The log records of the module, one constructor per format string. *)
Inductive logmsg : Type :=
| PdfplumberFailed (e : exn)
| PyPDF2Failed (e : exn)
| ContentTypeNotPdf (content_type : string)
| DownloadFailed (e : exn)
| ProcessingPdf (url : json)
| TryingFallback
| ExtractionError (e : exn)
| ProcessingPdfOf (i n : nat) (url : json)
| MultipleExtractionError (e : exn).

Inductive event : Type :=
| Log (lv : level) (m : logmsg)
| RequestsGet (url : json) (timeout : Z)
| PdfplumberOpen (b : bytes)
| PdfReader (b : bytes).

(** The library calls among the events of a trace, in order. *)
Definition is_call (ev : event) : bool :=
  match ev with
  | Log _ _ => false
  | _ => true
  end.

Definition calls (t : list event) : list event := filter is_call t.

(** The URLs requested in a trace, in order. *)
Definition gets (t : list event) : list json :=
  flat_map (fun ev => match ev with
                      | RequestsGet url _ => [url]
                      | _ => []
                      end) t.

(** A computation: the events emitted, then an exception or a value. *)
Definition M (A : Type) : Type := (list event * (exn + A))%type.

Definition ret {A} (a : A) : M A := ([], inr a).
Definition raise {A} (e : exn) : M A := ([], inl e).
Definition emit (ev : event) : M unit := ([ev], inr tt).

Definition bind {A B} (m : M A) (f : A -> M B) : M B :=
  match m with
  | (t, inl e) => (t, inl e)
  | (t, inr a) => let (t', r) := f a in (t ++ t', r)
  end.

(** [try: m  except Exception as e: h e] *)
Definition try_except {A} (m : M A) (h : exn -> M A) : M A :=
  match m with
  | (t, inl e) => let (t', r) := h e in (t ++ t', r)
  | (t, inr a) => (t, inr a)
  end.

Definition trace {A} (m : M A) : list event := fst m.
Definition outcome {A} (m : M A) : exn + A := snd m.

Declare Scope py_scope.
Delimit Scope py_scope with py.
Notation "x <- m ;; k" := (bind m (fun x => k))
  (at level 61, m at next level, right associativity) : py_scope.
Notation "m ;; k" := (bind m (fun _ => k))
  (at level 61, right associativity) : py_scope.
Local Open Scope py_scope.

Definition log (lv : level) (m : logmsg) : M unit := emit (Log lv m).

(** ** HTTP values *)

Record Response : Type := mkResponse {
  status_code : Z;
  reason : string;
  url : string;
  headers : list (string * string);
  content : bytes
}.

(** [response.raise_for_status()], as [requests] defines it: an [HTTPError]
    for the client and server error statuses, nothing otherwise. *)
Definition http_error_msg (r : Response) : string :=
  (NilZero.string_of_int (Z.to_int (status_code r))
   ++ (if (status_code r <? 500)%Z then " Client Error: " else " Server Error: ")
   ++ reason r ++ " for url: " ++ url r)%string.

Definition raise_for_status (r : Response) : M unit :=
  if ((400 <=? status_code r) && (status_code r <? 600))%Z
  then raise (Exn "HTTPError" (lit (http_error_msg r)))
  else ret tt.

(** [response.headers.get(name, default)] on the case-insensitive header
    dictionary. *)
Fixpoint headers_get (name : string) (default : string)
    (h : list (string * string)) : string :=
  match h with
  | [] => default
  | (k, v) :: r =>
      if String.eqb (lower k) (lower name) then v
      else headers_get name default r
  end.

(** What a view function returns: the JSON body and the status code. *)
Record Reply : Type := mkReply {
  body : json;
  status : Z
}.

Definition jsonify (fields : list (string * json)) : json := dict fields.

(** ** The length gate *)

(** [not extracted_text or len(extracted_text.strip()) < 10] *)
Definition too_short (extracted_text : option str) : bool :=
  match extracted_text with
  | None | Some [] => true
  | Some s => (length (strip s) <? 10)%nat
  end.

(** [len(extracted_text) if extracted_text else 0] *)
Definition len_or_zero (extracted_text : option str) : nat :=
  match extracted_text with
  | None | Some [] => 0
  | Some s => length s
  end.

(** ** The replies, as the handlers build them *)

Definition single_success (url : json) (t : str) : Reply :=
  mkReply (jsonify [("success", JBool true);
                    ("text", JStr t);
                    ("length", jlen (length t));
                    ("url", url)]) 200.

Definition single_unreadable (url : json) (n : nat) : Reply :=
  mkReply (jsonify [("error", jstr "Could not extract readable text from PDF");
                    ("url", url);
                    ("extracted_length", jlen n)]) 400.

Definition single_download_failed (url : json) : Reply :=
  mkReply (jsonify [("error", jstr "Failed to download PDF");
                    ("url", url)]) 400.

Definition bad_request (msg : string) : Reply :=
  mkReply (jsonify [("error", jstr msg)]) 400.

Definition internal_error (e : exn) : Reply :=
  mkReply (jsonify [("error", JStr (lit "Internal server error: " ++ exn_str e))])
          500.

Definition batch_success (url : json) (t : str) : json :=
  dict [("url", url);
        ("success", JBool true);
        ("text", JStr t);
        ("length", jlen (length t))].

Definition batch_failure (url : json) (reason : string) : json :=
  dict [("url", url);
        ("success", JBool false);
        ("error", jstr reason)].

Definition batch_reply (results : list json) (n : nat) : Reply :=
  mkReply (jsonify [("success", JBool true);
                    ("results", JList results);
                    ("total_processed", jlen n)]) 200.

(** [v.get(k)] on a JSON object. *)
Definition field (k : string) (v : json) : option json :=
  match v with
  | JDict d => dict_get (lit k) d
  | _ => None
  end.

(** The reply of one URL's pipeline once its text is known. *)
Definition single_result (url : json) (text : option str) : Reply :=
  match text with
  | Some t => if too_short text then single_unreadable url (len_or_zero text)
              else single_success url t
  | None => single_unreadable url 0
  end.

Definition batch_result (url : json) (text : option str) : json :=
  match text with
  | Some t => if too_short text
              then batch_failure url "Could not extract readable text"
              else batch_success url t
  | None => batch_failure url "Could not extract readable text"
  end.

(** ** The service

    The three library entry points the module calls.  [requests_get url t]
    is the outcome of [requests.get(url, timeout=t)]; [pdfplumber_open b] and
    [PyPDF2_PdfReader b] give, for a byte buffer, either the exception
    raised while opening it or its pages.  A page is the outcome of reaching
    it in the iteration and calling [extract_text()] on it: an exception, or
    the text ([None] or a string). *)

Definition page : Type := (exn + option str)%type.

Module App.

Section Service.

Variable requests_get : json -> Z -> exn + Response.
Variable pdfplumber_open : bytes -> exn + list page.
Variable PyPDF2_PdfReader : bytes -> exn + list page.

(** The page loop shared by both extractors:
    [for page in pages: page_text = page.extract_text();
     if page_text: text += page_text + "\n"]. *)
Fixpoint pages_loop (pages : list page) (text : str) : M str :=
  match pages with
  | [] => ret text
  | p :: rest =>
      page_text <- ([], p) ;;
      match page_text with
      | Some (c :: t) => pages_loop rest (text ++ (c :: t) ++ newline)
      | Some [] | None => pages_loop rest text
      end
  end.

Definition extract_text_with_pdfplumber (pdf_bytes : bytes) : M (option str) :=
  try_except
    (pdf <- ([PdfplumberOpen pdf_bytes], pdfplumber_open pdf_bytes) ;;
     text <- pages_loop pdf [] ;;
     ret (Some (strip text)))
    (fun e =>
       log ERROR (PdfplumberFailed e) ;;
       ret None).

Definition extract_text_with_pypdf2 (pdf_bytes : bytes) : M (option str) :=
  try_except
    (pdf_reader <- ([PdfReader pdf_bytes], PyPDF2_PdfReader pdf_bytes) ;;
     text <- pages_loop pdf_reader [] ;;
     ret (Some (strip text)))
    (fun e =>
       log ERROR (PyPDF2Failed e) ;;
       ret None).

Definition download_pdf (url : json) : M (option bytes) :=
  try_except
    (response <- ([RequestsGet url 30], requests_get url 30) ;;
     raise_for_status response ;;
     let content_type := lower (headers_get "content-type" "" (headers response)) in
     (if negb (str_contains (lit "pdf") (lit content_type))
      then log WARNING (ContentTypeNotPdf content_type)
      else ret tt) ;;
     ret (Some (content response)))
    (fun e =>
       log ERROR (DownloadFailed e) ;;
       ret None).

Definition health_check : M Reply :=
  ret (mkReply (jsonify [("status", jstr "healthy");
                         ("service", jstr "PDF Text Extraction Service");
                         ("version", jstr "1.0")])
               200).

(** [request.get_json()] either raises or returns the parsed body. *)
Definition Request : Type := (exn + json)%type.

Definition get_json (request : Request) : M json := ([], request).

(** [key in data] *)
Definition contains (key : str) (data : json) : M bool :=
  match data with
  | JDict d => ret (match dict_get key d with Some _ => true | None => false end)
  | JList l => ret (existsb (str_equals key) l)
  | JStr s => ret (str_contains key s)
  | JNull => raise (Exn "TypeError" (lit "argument of type 'NoneType' is not iterable"))
  | JBool _ => raise (Exn "TypeError" (lit "argument of type 'bool' is not iterable"))
  | JInt _ => raise (Exn "TypeError" (lit "argument of type 'int' is not iterable"))
  | JFloat _ => raise (Exn "TypeError" (lit "argument of type 'float' is not iterable"))
  end.

(** [data[key]] for a string key *)
Definition getitem (data : json) (key : str) : M json :=
  match data with
  | JDict d =>
      match dict_get key d with
      | Some v => ret v
      | None => raise (Exn "KeyError" (lit "'" ++ key ++ lit "'"))
      end
  | JList _ => raise (Exn "TypeError" (lit "list indices must be integers or slices, not str"))
  | JStr _ => raise (Exn "TypeError" (lit "string indices must be integers, not 'str'"))
  | JNull => raise (Exn "TypeError" (lit "'NoneType' object is not subscriptable"))
  | JBool _ => raise (Exn "TypeError" (lit "'bool' object is not subscriptable"))
  | JInt _ => raise (Exn "TypeError" (lit "'int' object is not subscriptable"))
  | JFloat _ => raise (Exn "TypeError" (lit "'float' object is not subscriptable"))
  end.

(** [not data or key not in data] *)
Definition missing (key : str) (data : json) : M bool :=
  if negb (truthy data) then ret true
  else
    present <- contains key data ;;
    ret (negb present).

(** [len(extracted_text)] *)
Definition len (extracted_text : option str) : M nat :=
  match extracted_text with
  | Some s => ret (length s)
  | None => raise (Exn "TypeError" (lit "object of type 'NoneType' has no len()"))
  end.

(** [extracted_text] as a JSON value *)
Definition text_value (extracted_text : option str) : json :=
  match extracted_text with
  | Some s => JStr s
  | None => JNull
  end.

Definition extract_pdf (request : Request) : M Reply :=
  try_except
    (data <- get_json request ;;
     no_url <- missing (lit "url") data ;;
     if no_url then
       ret (mkReply (jsonify [("error", jstr "Missing 'url' parameter")]) 400)
     else
       pdf_url <- getitem data (lit "url") ;;
       log INFO (ProcessingPdf pdf_url) ;;
       pdf_bytes <- download_pdf pdf_url ;;
       match pdf_bytes with
       | None | Some [] =>
           ret (mkReply (jsonify [("error", jstr "Failed to download PDF");
                                  ("url", pdf_url)]) 400)
       | Some b =>
           extracted_text <- extract_text_with_pdfplumber b ;;
           extracted_text <-
             (if too_short extracted_text then
                log INFO TryingFallback ;;
                extract_text_with_pypdf2 b
              else ret extracted_text) ;;
           if too_short extracted_text then
             ret (mkReply
                    (jsonify [("error", jstr "Could not extract readable text from PDF");
                              ("url", pdf_url);
                              ("extracted_length", jlen (len_or_zero extracted_text))])
                    400)
           else
             n <- len extracted_text ;;
             ret (mkReply
                    (jsonify [("success", JBool true);
                              ("text", text_value extracted_text);
                              ("length", jlen n);
                              ("url", pdf_url)])
                    200)
       end)
    (fun e =>
       log ERROR (ExtractionError e) ;;
       ret (mkReply
              (jsonify [("error", JStr (lit "Internal server error: " ++ exn_str e))])
              500)).

(** The body of [for i, url in enumerate(urls)], from index [i] on;
    [n] is [len(urls)] and [results] the list built so far. *)
Fixpoint batch_loop (n i : nat) (urls : list json) (results : list json)
    : M (list json) :=
  match urls with
  | [] => ret results
  | url :: rest =>
      log INFO (ProcessingPdfOf (i + 1) n url) ;;
      pdf_bytes <- download_pdf url ;;
      match pdf_bytes with
      | None | Some [] =>
          batch_loop n (S i) rest
            (results ++ [dict [("url", url);
                               ("success", JBool false);
                               ("error", jstr "Failed to download PDF")]])
      | Some b =>
          extracted_text <- extract_text_with_pdfplumber b ;;
          extracted_text <-
            (if too_short extracted_text then extract_text_with_pypdf2 b
             else ret extracted_text) ;;
          if too_short extracted_text then
            batch_loop n (S i) rest
              (results ++ [dict [("url", url);
                                 ("success", JBool false);
                                 ("error", jstr "Could not extract readable text")]])
          else
            k <- len extracted_text ;;
            batch_loop n (S i) rest
              (results ++ [dict [("url", url);
                                 ("success", JBool true);
                                 ("text", text_value extracted_text);
                                 ("length", jlen k)]])
      end
  end.

Definition extract_multiple_pdfs (request : Request) : M Reply :=
  try_except
    (data <- get_json request ;;
     no_urls <- missing (lit "urls") data ;;
     if no_urls then
       ret (mkReply (jsonify [("error", jstr "Missing 'urls' parameter (should be array)")]) 400)
     else
       urls <- getitem data (lit "urls") ;;
       match urls with
       | JList us =>
           results <- batch_loop (length us) 0 us [] ;;
           ret (mkReply
                  (jsonify [("success", JBool true);
                            ("results", JList results);
                            ("total_processed", jlen (length us))])
                  200)
       | _ =>
           ret (mkReply (jsonify [("error", jstr "'urls' should be an array")]) 400)
       end)
    (fun e =>
       log ERROR (MultipleExtractionError e) ;;
       ret (mkReply
              (jsonify [("error", JStr (lit "Internal server error: " ++ exn_str e))])
              500)).

(** *** What each call yields

    None of the three helpers lets an exception escape, so each has a result
    and a trace; the handlers are described in terms of these. *)

Definition result_of {A} (m : M (option A)) : option A :=
  match outcome m with
  | inr r => r
  | inl _ => None
  end.

Definition fetch (url : json) : option bytes := result_of (download_pdf url).
Definition fetch_trace (url : json) : list event := trace (download_pdf url).

Definition primary_text (b : bytes) : option str :=
  result_of (extract_text_with_pdfplumber b).
Definition primary_trace (b : bytes) : list event :=
  trace (extract_text_with_pdfplumber b).

Definition fallback_text (b : bytes) : option str :=
  result_of (extract_text_with_pypdf2 b).
Definition fallback_trace (b : bytes) : list event :=
  trace (extract_text_with_pypdf2 b).

(** The text the length gate is finally applied to. *)
Definition extracted_text (b : bytes) : option str :=
  if too_short (primary_text b) then fallback_text b else primary_text b.

(** *** Summaries of the two handlers

    For a request that names its URLs, the reply and the trace of each
    handler in terms of what the helpers yield. *)

Definition single_reply (url : json) : Reply :=
  match fetch url with
  | None | Some [] => single_download_failed url
  | Some b => single_result url (extracted_text b)
  end.

Definition single_trace (url : json) : list event :=
  Log INFO (ProcessingPdf url) :: fetch_trace url ++
  match fetch url with
  | None | Some [] => []
  | Some b =>
      primary_trace b ++
      (if too_short (primary_text b)
       then Log INFO TryingFallback :: fallback_trace b
       else [])
  end.

(** The library calls one URL's pipeline makes, in either handler. *)
Definition pipeline_calls (url : json) : list event :=
  RequestsGet url 30 ::
  match fetch url with
  | None | Some [] => []
  | Some b =>
      PdfplumberOpen b ::
      (if too_short (primary_text b) then [PdfReader b] else [])
  end.

Definition batch_entry (url : json) : json :=
  match fetch url with
  | None | Some [] => batch_failure url "Failed to download PDF"
  | Some b => batch_result url (extracted_text b)
  end.

Definition iteration_trace (n i : nat) (url : json) : list event :=
  Log INFO (ProcessingPdfOf (i + 1) n url) :: fetch_trace url ++
  match fetch url with
  | None | Some [] => []
  | Some b =>
      primary_trace b ++
      (if too_short (primary_text b) then fallback_trace b else [])
  end.

Fixpoint batch_trace (n i : nat) (urls : list json) : list event :=
  match urls with
  | [] => []
  | url :: rest => iteration_trace n i url ++ batch_trace n (S i) rest
  end.

End Service.

End App.

Import App.

(** ** Following the spec's words: the text of a document *)

(** "concatenating with a newline separator between pages" *)
Fixpoint join (sep : str) (l : list str) : str :=
  match l with
  | [] => []
  | [x] => x
  | x :: r => x ++ sep ++ join sep r
  end.

(** "pages yielding no text contribute nothing" *)
Fixpoint nonempty_texts (texts : list (option str)) : list str :=
  match texts with
  | [] => []
  | Some (c :: t) :: r => (c :: t) :: nonempty_texts r
  | _ :: r => nonempty_texts r
  end.

Definition document_text (texts : list (option str)) : str :=
  strip (join newline (nonempty_texts texts)).

(** What the spec asks of an extractor [m] that wraps the library outcome
    [lib] and logs [failed e] when it swallows [e]: the trimmed, joined text
    of the pages when every page is read; an absent result, logged, when
    opening the document or reading one of its pages raises; and in no case
    an exception. *)
Definition extractor_contract (lib : exn + list page) (m : M (option str))
    (failed : exn -> logmsg) : Prop :=
  (forall texts : list (option str),
      lib = inr (map inr texts) ->
      outcome m = inr (Some (document_text texts)))
  /\ (forall e : exn,
      lib = inl e ->
      outcome m = inr None /\ In (Log ERROR (failed e)) (trace m))
  /\ (forall (texts : list (option str)) (e : exn) (rest : list page),
      lib = inr (map inr texts ++ inl e :: rest) ->
      outcome m = inr None /\ In (Log ERROR (failed e)) (trace m))
  /\ (exists r : option str, outcome m = inr r).

(** ** A sample deployment

    Five documents behind five URLs, told apart by their first byte. *)

Module Sample.

Definition pdf (n : Byte.byte) : bytes := [n; Byte.x25; Byte.x50; Byte.x44; Byte.x46].

Definition url (s : string) : json := JStr (lit s).

Definition ok (u content_type : string) (body : bytes) : Response :=
  mkResponse 200 "OK" u [("Content-Type", content_type)] body.

Definition report_response : Response :=
  ok "http://docs/report.pdf" "application/pdf" (pdf Byte.x01).
Definition scan_response : Response :=
  ok "http://docs/scan.pdf" "application/PDF" (pdf Byte.x02).
Definition page_response : Response :=
  ok "http://docs/page.html" "text/html" (pdf Byte.x03).
Definition legacy_response : Response :=
  mkResponse 200 "OK" "http://docs/legacy.pdf" [] (pdf Byte.x04).
Definition empty_response : Response :=
  ok "http://docs/empty.pdf" "application/pdf" [].
Definition gone_response : Response :=
  mkResponse 404 "Not Found" "http://docs/gone.pdf"
             [("content-type", "text/html")] (pdf Byte.x01).

Definition timed_out : exn := Exn "ConnectTimeout" (lit "timed out").

Definition requests_get (u : json) (timeout : Z) : exn + Response :=
  match u with
  | JStr s =>
      if str_eqb s (lit "http://docs/report.pdf") then inr report_response
      else if str_eqb s (lit "http://docs/scan.pdf") then inr scan_response
      else if str_eqb s (lit "http://docs/page.html") then inr page_response
      else if str_eqb s (lit "http://docs/legacy.pdf") then inr legacy_response
      else if str_eqb s (lit "http://docs/empty.pdf") then inr empty_response
      else if str_eqb s (lit "http://docs/gone.pdf") then inr gone_response
      else inl timed_out
  | _ => inl (Exn "MissingSchema" (lit "Invalid URL"))
  end.

Definition first_byte (b : bytes) : Byte.byte :=
  match b with
  | c :: _ => c
  | [] => Byte.x00
  end.

Definition pdfplumber_open (b : bytes) : exn + list page :=
  match first_byte b with
  | Byte.x01 => inr [inr (Some (lit "Annual report 2023 ")); inr None;
                     inr (Some []); inr (Some (lit "Revenue grew."))]
  | Byte.x02 => inr [inr (Some (lit "123456789"))]
  | Byte.x04 => inr [inr (Some (lit "Title")); inl (Exn "PDFSyntaxError" (lit "bad xref"))]
  | _ => inl (Exn "PDFSyntaxError" (lit "No /Root object"))
  end.

Definition PyPDF2_PdfReader (b : bytes) : exn + list page :=
  match first_byte b with
  | Byte.x01 => inr [inr (Some (lit "Annual report"))]
  | Byte.x02 => inr [inr (Some (lit "ab"))]
  | Byte.x04 => inr [inr (Some (lit "Title")); inr (Some (lit "Legacy body text"))]
  | _ => inl (Exn "PdfReadError" (lit "EOF marker not found"))
  end.

Definition extract_pdf := App.extract_pdf requests_get pdfplumber_open PyPDF2_PdfReader.
Definition extract_multiple_pdfs :=
  App.extract_multiple_pdfs requests_get pdfplumber_open PyPDF2_PdfReader.

Definition post (fields : list (string * json)) : Request := inr (dict fields).

Definition report : json := url "http://docs/report.pdf".
Definition scan : json := url "http://docs/scan.pdf".
Definition page_html : json := url "http://docs/page.html".
Definition legacy : json := url "http://docs/legacy.pdf".
Definition empty : json := url "http://docs/empty.pdf".
Definition gone : json := url "http://docs/gone.pdf".
Definition slow : json := url "http://docs/slow.pdf".

Definition report_text : str :=
  lit "Annual report 2023 " ++ newline ++ lit "Revenue grew.".

(** What [get_json] raises on a body such as [{url:]. *)
Definition bad_json : exn :=
  Exn "BadRequest" (lit "400 Bad Request: Failed to decode JSON object").

End Sample.


(** ** Further notions used by the properties *)

(** A string of whitespace only. *)
Definition blank (s : str) : bool := forallb isspace s.

(** The progress records of a trace: [(i, n, url)] for each
    "Processing PDF i/n: url". *)
Definition progress (t : list event) : list (nat * nat * json) :=
  flat_map (fun ev => match ev with
                      | Log INFO (ProcessingPdfOf i n u) => [(i, n, u)]
                      | _ => []
                      end) t.

(** [enumerate(urls)], counting from [i]. *)
Fixpoint enumerate (i : nat) (urls : list json) : list (nat * json) :=
  match urls with
  | [] => []
  | u :: rest => (i, u) :: enumerate (S i) rest
  end.

(** The view function [m] returns a reply with status [code]. *)
Definition answers (m : M Reply) (code : Z) : Prop :=
  exists r, outcome m = inr r /\ status r = code.

(** A reply is either a success or an error, never both:
    200 with [success: true], or 400/500 with an [error] string. *)
Definition well_formed_reply (r : Reply) : Prop :=
  (status r = 200%Z
   /\ field "success" (body r) = Some (JBool true)
   /\ field "error" (body r) = None)
  \/ ((status r = 400%Z \/ status r = 500%Z)
      /\ field "success" (body r) = None
      /\ exists msg, field "error" (body r) = Some (JStr msg)).



(** A second deployment: documents whose pages carry no ink. *)
Module Blank.

Definition pages : list (option str) :=
  [Some (lit "   "); None; Some [9%N; 10%N; 160%N]; Some []; Some (lit " ")].

Definition pdfplumber_open (b : bytes) : exn + list page := inr (map inr pages).
Definition PyPDF2_PdfReader (b : bytes) : exn + list page := inr [].

End Blank.

(** A third deployment: a server that answers 300 Multiple Choices, with a
    body and no [Location] to follow. *)
Module Choices.

Definition link : json := Sample.url "http://docs/choices".

Definition response : Response :=
  mkResponse 300 "Multiple Choices" "http://docs/choices"
             [("Content-Type", "application/pdf")] (Sample.pdf Byte.x01).

Definition requests_get (u : json) (timeout : Z) : exn + Response := inr response.

Definition extract_pdf :=
  App.extract_pdf requests_get Sample.pdfplumber_open Sample.PyPDF2_PdfReader.

End Choices.

(** A statement about every deployment, at the sample one. *)
Abbreviation world_call f :=
  (f Sample.requests_get Sample.pdfplumber_open Sample.PyPDF2_PdfReader).

(** * Properties *)

Unset Implicit Arguments.

Section Properties.

Variable requests_get : json -> Z -> exn + Response.
Variable pdfplumber_open : bytes -> exn + list page.
Variable PyPDF2_PdfReader : bytes -> exn + list page.

Local Abbreviation download_pdf := (App.download_pdf requests_get).
Local Abbreviation extract_text_with_pdfplumber :=
  (App.extract_text_with_pdfplumber pdfplumber_open).
Local Abbreviation extract_text_with_pypdf2 :=
  (App.extract_text_with_pypdf2 PyPDF2_PdfReader).
Local Abbreviation extract_pdf :=
  (App.extract_pdf requests_get pdfplumber_open PyPDF2_PdfReader).
Local Abbreviation batch_loop :=
  (App.batch_loop requests_get pdfplumber_open PyPDF2_PdfReader).
Local Abbreviation extract_multiple_pdfs :=
  (App.extract_multiple_pdfs requests_get pdfplumber_open PyPDF2_PdfReader).
Local Abbreviation fetch := (App.fetch requests_get).
Local Abbreviation fetch_trace := (App.fetch_trace requests_get).
Local Abbreviation primary_text := (App.primary_text pdfplumber_open).
Local Abbreviation primary_trace := (App.primary_trace pdfplumber_open).
Local Abbreviation fallback_text := (App.fallback_text PyPDF2_PdfReader).
Local Abbreviation fallback_trace := (App.fallback_trace PyPDF2_PdfReader).
Local Abbreviation extracted_text :=
  (App.extracted_text pdfplumber_open PyPDF2_PdfReader).
Local Abbreviation single_reply :=
  (App.single_reply requests_get pdfplumber_open PyPDF2_PdfReader).
Local Abbreviation single_trace :=
  (App.single_trace requests_get pdfplumber_open PyPDF2_PdfReader).
Local Abbreviation batch_entry :=
  (App.batch_entry requests_get pdfplumber_open PyPDF2_PdfReader).
Local Abbreviation batch_trace :=
  (App.batch_trace requests_get pdfplumber_open PyPDF2_PdfReader).
Local Abbreviation pipeline_calls :=
  (App.pipeline_calls requests_get pdfplumber_open).
Local Abbreviation iteration_trace :=
  (App.iteration_trace requests_get pdfplumber_open PyPDF2_PdfReader).

(** ** Whitespace trimming *)

Lemma lstrip_app (s r : str) :
  lstrip s <> [] -> lstrip (s ++ r) = lstrip s ++ r.
Proof.
  induction s as [|c s IH]; simpl; [congruence|].
  destruct (isspace c); auto.
Qed.

Lemma lstrip_blank_snoc (s : str) (c : char) :
  lstrip s = [] -> isspace c = true -> lstrip (s ++ [c]) = [].
Proof.
  intros Hs Hc. induction s as [|d s IH]; simpl in *.
  - now rewrite Hc.
  - destruct (isspace d); [auto | discriminate].
Qed.

Lemma rstrip_snoc_space (s : str) (c : char) :
  isspace c = true -> rstrip (s ++ [c]) = rstrip s.
Proof.
  intros Hc. unfold rstrip. rewrite rev_app_distr. simpl.
  now rewrite Hc.
Qed.

Lemma strip_snoc_space (s : str) (c : char) :
  isspace c = true -> strip (s ++ [c]) = strip s.
Proof.
  intros Hc. unfold strip. destruct (lstrip s) as [|d r] eqn:E.
  - now rewrite lstrip_blank_snoc.
  - rewrite lstrip_app by congruence. rewrite E.
    now apply rstrip_snoc_space.
Qed.

Lemma strip_app_newline (s : str) : strip (s ++ newline) = strip s.
Proof. now apply strip_snoc_space. Qed.

Lemma lstrip_clean (s : str) : starts_clean (lstrip s).
Proof.
  induction s as [|c s IH]; simpl; [exact I|].
  destruct (isspace c) eqn:E; [exact IH | exact E].
Qed.

Lemma lstrip_of_clean (s : str) : starts_clean s -> lstrip s = s.
Proof.
  destruct s as [|c s]; simpl; [reflexivity|].
  now intros ->.
Qed.

Lemma lstrip_idem (s : str) : lstrip (lstrip s) = lstrip s.
Proof. apply lstrip_of_clean, lstrip_clean. Qed.

Lemma lstrip_keeps_last (s : str) (c : char) :
  isspace c = false -> exists r, lstrip (s ++ [c]) = r ++ [c].
Proof.
  intros Hc. induction s as [|d s [r IH]]; simpl.
  - rewrite Hc. now exists [].
  - destruct (isspace d).
    + now exists r.
    + now exists (d :: s).
Qed.

Lemma rstrip_clean (s : str) : starts_clean s -> starts_clean (rstrip s).
Proof.
  destruct s as [|c s]; simpl; [intros _; exact I|].
  intros Hc. unfold rstrip. simpl.
  destruct (lstrip_keeps_last (rev s) c Hc) as [r ->].
  rewrite rev_app_distr. simpl. exact Hc.
Qed.

Lemma rstrip_idem (s : str) : rstrip (rstrip s) = rstrip s.
Proof.
  unfold rstrip. rewrite rev_involutive. now rewrite lstrip_idem.
Qed.

Lemma strip_clean (s : str) : starts_clean (strip s).
Proof. apply rstrip_clean, lstrip_clean. Qed.

Lemma strip_idem (s : str) : strip (strip s) = strip s.
Proof.
  unfold strip at 1. rewrite (lstrip_of_clean _ (strip_clean s)).
  unfold strip. apply rstrip_idem.
Qed.

(** ** The helpers never raise *)

Lemma pages_loop_silent (ps : list page) (t : str) : trace (pages_loop ps t) = [].
Proof.
  revert t. induction ps as [|p ps IH]; intros t; [reflexivity|].
  destruct p as [e|[[|c r]|]]; simpl; try reflexivity.
  - specialize (IH t). destruct (pages_loop ps t). simpl in *. now subst.
  - specialize (IH (t ++ c :: r ++ newline)).
    destruct (pages_loop ps _). simpl in *. now subst.
  - specialize (IH t). destruct (pages_loop ps t). simpl in *. now subst.
Qed.

Lemma plumber_run (b : bytes) :
  extract_text_with_pdfplumber b = (primary_trace b, inr (primary_text b)).
Proof.
  unfold App.primary_trace, App.primary_text, result_of, outcome, trace.
  unfold App.extract_text_with_pdfplumber.
  destruct (pdfplumber_open b) as [e|ps]; simpl; [reflexivity|].
  destruct (pages_loop ps []) as [t [e|x]]; reflexivity.
Qed.

Lemma pypdf2_run (b : bytes) :
  extract_text_with_pypdf2 b = (fallback_trace b, inr (fallback_text b)).
Proof.
  unfold App.fallback_trace, App.fallback_text, result_of, outcome, trace.
  unfold App.extract_text_with_pypdf2.
  destruct (PyPDF2_PdfReader b) as [e|ps]; simpl; [reflexivity|].
  destruct (pages_loop ps []) as [t [e|x]]; reflexivity.
Qed.

Lemma download_run (url : json) :
  download_pdf url = (fetch_trace url, inr (fetch url)).
Proof.
  unfold App.fetch_trace, App.fetch, result_of, outcome, trace.
  unfold App.download_pdf.
  destruct (requests_get url 30) as [e|r]; simpl; [reflexivity|].
  unfold raise_for_status.
  destruct ((400 <=? status_code r)%Z && (status_code r <? 600)%Z); simpl;
    [reflexivity|].
  destruct (negb _); reflexivity.
Qed.

Lemma too_short_false (r : option str) :
  too_short r = false ->
  exists t, r = Some t /\ t <> [] /\ 10 <= length (strip t) /\
            len_or_zero r = length t.
Proof.
  destruct r as [[|c t]|]; simpl; try discriminate.
  intros H. exists (c :: t). repeat split; try discriminate.
  apply Nat.ltb_ge in H. exact H.
Qed.

Lemma extract_pdf_run (d : list (str * json)) (url : json) :
  dict_get (lit "url") d = Some url ->
  extract_pdf (inr (JDict d)) = (single_trace url, inr (single_reply url)).
Proof.
  intros Hd.
  unfold App.extract_pdf, get_json, missing, App.single_trace, App.single_reply.
  destruct d as [|kv d']; [discriminate|].
  cbn [truthy negb bind contains ret]. rewrite Hd.
  cbn [bind ret negb getitem app]. rewrite Hd.
  cbn [bind ret log emit app]. rewrite download_run.
  cbn [bind].
  destruct (fetch url) as [[|c b]|]; cbn [ret app try_except];
    try (rewrite app_nil_r; reflexivity).
  rewrite plumber_run. cbn [bind]. unfold App.extracted_text, single_result.
  destruct (too_short (primary_text (c :: b))) eqn:Ep.
  - cbn [log emit bind app ret]. rewrite pypdf2_run. cbn [bind].
    destruct (too_short (fallback_text (c :: b))) eqn:Ef.
    + destruct (fallback_text (c :: b)); cbn [ret app try_except];
        rewrite ?app_nil_r; try rewrite Ef; reflexivity.
    + destruct (too_short_false _ Ef) as (t & Ht & _ & _ & _).
      rewrite Ht in *. rewrite ?Ef.
      cbn [len bind ret app try_except text_value].
      rewrite ?app_nil_r. reflexivity.
  - cbn [ret bind]. rewrite Ep.
    destruct (too_short_false _ Ep) as (t & Ht & _ & _ & _).
    rewrite Ht in *. rewrite ?Ep.
    cbn [len bind ret app try_except text_value].
    rewrite ?app_nil_r. reflexivity.
Qed.

Lemma batch_loop_run (us : list json) (n i : nat) (acc : list json) :
  batch_loop n i us acc = (batch_trace n i us, inr (acc ++ map batch_entry us)).
Proof.
  revert i acc. induction us as [|url rest IH]; intros i acc.
  - simpl. now rewrite app_nil_r.
  - cbn [App.batch_loop App.batch_trace map].
    unfold App.iteration_trace, App.batch_entry.
    cbn [log emit bind]. rewrite download_run. cbn [bind].
    destruct (fetch url) as [[|c b]|].
    + rewrite IH. cbn [app]. rewrite app_nil_r, <- app_assoc. reflexivity.
    + rewrite plumber_run. cbn [bind].
      unfold App.extracted_text, batch_result.
      destruct (too_short (primary_text (c :: b))) eqn:Ep.
      * rewrite pypdf2_run. cbn [bind].
        destruct (too_short (fallback_text (c :: b))) eqn:Ef.
        -- rewrite IH.
           destruct (fallback_text (c :: b)); rewrite ?Ef; cbn [app];
             rewrite <- !app_assoc; reflexivity.
        -- destruct (too_short_false _ Ef) as (t & Ht & _ & _ & _).
           rewrite Ht in *. rewrite ?Ef.
           cbn [len bind ret text_value]. rewrite IH.
           cbn [app]. rewrite <- !app_assoc. reflexivity.
      * cbn [ret bind]. rewrite Ep.
        destruct (too_short_false _ Ep) as (t & Ht & _ & _ & _).
        rewrite Ht in *. rewrite ?Ep.
        cbn [len bind ret text_value]. rewrite IH.
        cbn [app]. rewrite ?app_nil_r, <- !app_assoc. reflexivity.
    + rewrite IH. cbn [app]. rewrite app_nil_r, <- app_assoc. reflexivity.
Qed.

Lemma extract_multiple_run (d : list (str * json)) (us : list json) :
  dict_get (lit "urls") d = Some (JList us) ->
  extract_multiple_pdfs (inr (JDict d)) =
  (batch_trace (length us) 0 us,
   inr (batch_reply (map batch_entry us) (length us))).
Proof.
  intros Hd.
  unfold App.extract_multiple_pdfs, get_json, missing.
  destruct d as [|kv d']; [discriminate|].
  cbn [truthy negb bind contains ret]. rewrite Hd.
  cbn [bind ret negb getitem app]. rewrite Hd.
  cbn [bind ret]. rewrite batch_loop_run.
  cbn [bind ret app try_except]. rewrite app_nil_r. reflexivity.
Qed.

(** ** The library calls of each trace *)

Lemma calls_app (a b : list event) : calls (a ++ b) = calls a ++ calls b.
Proof. apply filter_app. Qed.

Lemma In_calls (ev : event) (t : list event) :
  In ev (calls t) <-> In ev t /\ is_call ev = true.
Proof. apply filter_In. Qed.

Lemma primary_calls (b : bytes) : calls (primary_trace b) = [PdfplumberOpen b].
Proof.
  unfold App.primary_trace, trace, App.extract_text_with_pdfplumber.
  destruct (pdfplumber_open b) as [e|ps]; simpl; [reflexivity|].
  pose proof (pages_loop_silent ps []) as Hs.
  destruct (pages_loop ps []) as [t [e|x]]; simpl in *; subst; reflexivity.
Qed.

Lemma fallback_calls (b : bytes) : calls (fallback_trace b) = [PdfReader b].
Proof.
  unfold App.fallback_trace, trace, App.extract_text_with_pypdf2.
  destruct (PyPDF2_PdfReader b) as [e|ps]; simpl; [reflexivity|].
  pose proof (pages_loop_silent ps []) as Hs.
  destruct (pages_loop ps []) as [t [e|x]]; simpl in *; subst; reflexivity.
Qed.

Lemma fetch_calls (url : json) : calls (fetch_trace url) = [RequestsGet url 30].
Proof.
  unfold App.fetch_trace, trace, App.download_pdf.
  destruct (requests_get url 30) as [e|r]; simpl; [reflexivity|].
  unfold raise_for_status.
  destruct ((400 <=? status_code r)%Z && (status_code r <? 600)%Z); simpl;
    [reflexivity|].
  destruct (negb _); reflexivity.
Qed.

Lemma single_calls (url : json) : calls (single_trace url) = pipeline_calls url.
Proof.
  unfold App.single_trace, App.pipeline_calls.
  change (Log INFO (ProcessingPdf url) :: ?t) with ([Log INFO (ProcessingPdf url)] ++ t).
  rewrite !calls_app, fetch_calls. cbn [calls filter is_call app].
  destruct (fetch url) as [[|c b]|]; try reflexivity.
  rewrite calls_app, primary_calls.
  destruct (too_short (primary_text (c :: b))); cbn [calls filter is_call app];
    [|reflexivity].
  fold (calls (fallback_trace (c :: b))). now rewrite fallback_calls.
Qed.

Lemma iteration_calls (n i : nat) (url : json) :
  calls (iteration_trace n i url) = pipeline_calls url.
Proof.
  unfold App.iteration_trace, App.pipeline_calls.
  change (Log INFO ?m :: ?t) with ([Log INFO m] ++ t).
  rewrite !calls_app, fetch_calls. cbn [calls filter is_call app].
  destruct (fetch url) as [[|c b]|]; try reflexivity.
  rewrite calls_app, primary_calls.
  destruct (too_short (primary_text (c :: b))); [|reflexivity].
  now rewrite fallback_calls.
Qed.

Lemma batch_calls (n i : nat) (us : list json) :
  calls (batch_trace n i us) = flat_map pipeline_calls us.
Proof.
  revert i. induction us as [|url rest IH]; intros i; [reflexivity|].
  cbn [App.batch_trace flat_map].
  now rewrite calls_app, iteration_calls, IH.
Qed.

(** Every fallback call of a batch is owed to a URL whose document the
    primary extractor could not read. *)
Lemma batch_fallback_calls (us : list json) (b : bytes) :
  In (PdfReader b) (flat_map pipeline_calls us) <->
  exists url, In url us /\ fetch url = Some b /\ b <> [] /\
              too_short (primary_text b) = true.
Proof.
  rewrite in_flat_map. split.
  - intros (url & Hin & Hc). exists url. split; [exact Hin|].
    unfold App.pipeline_calls in Hc.
    destruct Hc as [Hc|Hc]; [discriminate|].
    destruct (fetch url) as [[|c r]|]; try contradiction.
    destruct Hc as [Hc|Hc]; [discriminate|].
    destruct (too_short (primary_text (c :: r))) eqn:E; [|contradiction].
    destruct Hc as [Hc|[]]. injection Hc as <-.
    repeat split; [discriminate | exact E].
  - intros (url & Hin & Hf & Hb & Hp). exists url. split; [exact Hin|].
    unfold App.pipeline_calls. rewrite Hf.
    destruct b as [|c r]; [congruence|]. rewrite Hp. simpl. auto.
Qed.

(** ** The extractors *)

Lemma join_terminated (l : list str) :
  l <> [] ->
  List.concat (map (fun t => t ++ newline) l) = join newline l ++ newline.
Proof.
  induction l as [|x [|y r] IH]; intros Hl; [congruence| |].
  - simpl. now rewrite app_nil_r.
  - change (List.concat (map (fun t => t ++ newline) (x :: y :: r)))
      with ((x ++ newline) ++ List.concat (map (fun t => t ++ newline) (y :: r))).
    rewrite IH by discriminate.
    change (join newline (x :: y :: r)) with (x ++ newline ++ join newline (y :: r)).
    now rewrite <- !app_assoc.
Qed.

Lemma strip_terminated (l : list str) :
  strip (List.concat (map (fun t => t ++ newline) l)) = strip (join newline l).
Proof.
  destruct l as [|x r]; [reflexivity|].
  rewrite join_terminated by discriminate. apply strip_app_newline.
Qed.

Lemma pages_loop_texts (texts : list (option str)) (acc : str) :
  pages_loop (map inr texts) acc =
  ([], inr (acc ++ List.concat (map (fun t => t ++ newline) (nonempty_texts texts)))).
Proof.
  revert acc. induction texts as [|[[|c t]|] r IH]; intros acc.
  - simpl. now rewrite app_nil_r.
  - cbn [map pages_loop bind nonempty_texts]. now rewrite IH.
  - cbn [map pages_loop bind nonempty_texts]. rewrite IH.
    cbn [app List.concat map]. rewrite <- app_assoc. reflexivity.
  - cbn [map pages_loop bind nonempty_texts]. now rewrite IH.
Qed.

Lemma pages_loop_raises (texts : list (option str)) (e : exn)
    (rest : list page) (acc : str) :
  pages_loop (map inr texts ++ inl e :: rest) acc = ([], inl e).
Proof.
  revert acc. induction texts as [|[[|c t]|] r IH]; intros acc;
    cbn [map app pages_loop bind]; try rewrite IH; reflexivity.
Qed.

Lemma pages_loop_outcome (ps : list page) (acc : str) :
  exists r, pages_loop ps acc = ([], r).
Proof.
  pose proof (pages_loop_silent ps acc) as H.
  destruct (pages_loop ps acc) as [t r]. simpl in H. subst. now exists r.
Qed.

(** C7: each extractor returns the non-empty page texts joined by newlines
    and trimmed; when opening the buffer or reading a page raises, it logs
    the error and returns an absent result; it never raises itself. *)
Theorem extractors_join_pages_and_swallow_errors (b : bytes) :
  extractor_contract (pdfplumber_open b) (extract_text_with_pdfplumber b)
    PdfplumberFailed
  /\ extractor_contract (PyPDF2_PdfReader b) (extract_text_with_pypdf2 b)
    PyPDF2Failed.
Proof.
  split.
  - unfold extractor_contract, App.extract_text_with_pdfplumber, outcome, trace.
    repeat split.
    + intros texts ->. cbn [bind]. rewrite pages_loop_texts.
      cbn [bind ret try_except app snd]. unfold document_text.
      now rewrite strip_terminated.
    + now rewrite H.
    + rewrite H. simpl. auto.
    + rewrite H. cbn [bind]. now rewrite pages_loop_raises.
    + rewrite H. cbn [bind]. rewrite pages_loop_raises. simpl. auto.
    + destruct (pdfplumber_open b) as [e|ps]; [now exists None|].
      cbn [bind]. destruct (pages_loop_outcome ps []) as [[e|t] ->].
      * now exists None.
      * now exists (Some (strip t)).
  - unfold extractor_contract, App.extract_text_with_pypdf2, outcome, trace.
    repeat split.
    + intros texts ->. cbn [bind]. rewrite pages_loop_texts.
      cbn [bind ret try_except app snd]. unfold document_text.
      now rewrite strip_terminated.
    + now rewrite H.
    + rewrite H. simpl. auto.
    + rewrite H. cbn [bind]. now rewrite pages_loop_raises.
    + rewrite H. cbn [bind]. rewrite pages_loop_raises. simpl. auto.
    + destruct (PyPDF2_PdfReader b) as [e|ps]; [now exists None|].
      cbn [bind]. destruct (pages_loop_outcome ps []) as [[e|t] ->].
      * now exists None.
      * now exists (Some (strip t)).
Qed.

(** ** The pipeline of one URL *)

Lemma fetch_of_outcome (url : json) (r : option bytes) :
  outcome (download_pdf url) = inr r -> fetch url = r.
Proof. unfold App.fetch, result_of. now intros ->. Qed.

Lemma primary_of_outcome (b : bytes) (r : option str) :
  outcome (extract_text_with_pdfplumber b) = inr r -> primary_text b = r.
Proof. unfold App.primary_text, result_of. now intros ->. Qed.

Lemma fallback_of_outcome (b : bytes) (r : option str) :
  outcome (extract_text_with_pypdf2 b) = inr r -> fallback_text b = r.
Proof. unfold App.fallback_text, result_of. now intros ->. Qed.

Lemma single_reply_fetched (url : json) (b : bytes) :
  fetch url = Some b -> b <> [] ->
  single_reply url = single_result url (extracted_text b).
Proof.
  intros Hf Hb. unfold App.single_reply. rewrite Hf.
  destruct b; [congruence | reflexivity].
Qed.

Lemma batch_entry_fetched (url : json) (b : bytes) :
  fetch url = Some b -> b <> [] ->
  batch_entry url = batch_result url (extracted_text b).
Proof.
  intros Hf Hb. unfold App.batch_entry. rewrite Hf.
  destruct b; [congruence | reflexivity].
Qed.

Lemma pipeline_calls_fetched (url : json) (b : bytes) :
  fetch url = Some b -> b <> [] ->
  pipeline_calls url =
  RequestsGet url 30 :: PdfplumberOpen b ::
  (if too_short (primary_text b) then [PdfReader b] else []).
Proof.
  intros Hf Hb. unfold App.pipeline_calls. rewrite Hf.
  destruct b; [congruence | reflexivity].
Qed.

Lemma long_enough (t : str) :
  10 <= length (strip t) -> too_short (Some t) = false.
Proof.
  destruct t as [|c r]; simpl; [lia|].
  intros H. now apply Nat.ltb_ge.
Qed.

Lemma single_result_long (url : json) (t : str) :
  10 <= length (strip t) -> single_result url (Some t) = single_success url t.
Proof. intros H. unfold single_result. now rewrite (long_enough _ H). Qed.

Lemma batch_result_long (url : json) (t : str) :
  10 <= length (strip t) -> batch_result url (Some t) = batch_success url t.
Proof. intros H. unfold batch_result. now rewrite (long_enough _ H). Qed.

Lemma single_result_short (url : json) (r : option str) :
  too_short r = true -> single_result url r = single_unreadable url (len_or_zero r).
Proof. intros H. unfold single_result. destruct r; [now rewrite H | reflexivity]. Qed.

Lemma batch_result_short (url : json) (r : option str) :
  too_short r = true ->
  batch_result url r = batch_failure url "Could not extract readable text".
Proof. intros H. unfold batch_result. destruct r; [now rewrite H | reflexivity]. Qed.

Lemma entry_at (us : list json) (i : nat) (url : json) :
  nth_error us i = Some url ->
  nth_error (map batch_entry us) i = Some (batch_entry url).
Proof. intros H. rewrite nth_error_map. now rewrite H. Qed.

(** The primary extractor's text is already trimmed. *)
Lemma primary_text_trimmed (b : bytes) (t : str) :
  primary_text b = Some t -> strip t = t.
Proof.
  unfold App.primary_text, result_of, outcome, App.extract_text_with_pdfplumber.
  destruct (pdfplumber_open b) as [e|ps]; simpl; [discriminate|].
  destruct (pages_loop ps []) as [tr [e|x]]; simpl; [discriminate|].
  intros [= <-]. apply strip_idem.
Qed.

Lemma fallback_text_trimmed (b : bytes) (t : str) :
  fallback_text b = Some t -> strip t = t.
Proof.
  unfold App.fallback_text, result_of, outcome, App.extract_text_with_pypdf2.
  destruct (PyPDF2_PdfReader b) as [e|ps]; simpl; [discriminate|].
  destruct (pages_loop ps []) as [tr [e|x]]; simpl; [discriminate|].
  intros [= <-]. apply strip_idem.
Qed.

(** C1: when the primary text has trimmed length at least 10 the pipeline
    returns it unchanged and the fallback extractor is not called; when it
    is absent or shorter, the fallback extractor is called on the same bytes
    and, if its text is absent or shorter than 10 too, the pipeline reports
    a failure. *)
Theorem primary_text_wins_else_fallback
    (d d' : list (str * json)) (us : list json) (i : nat)
    (url : json) (b : bytes) :
  dict_get (lit "url") d = Some url ->
  dict_get (lit "urls") d' = Some (JList us) ->
  nth_error us i = Some url ->
  outcome (download_pdf url) = inr (Some b) ->
  b <> [] ->
  let single := extract_pdf (inr (JDict d)) in
  let batch := extract_multiple_pdfs (inr (JDict d')) in
  (forall t : str,
      outcome (extract_text_with_pdfplumber b) = inr (Some t) ->
      10 <= length (strip t) ->
      strip t = t
      /\ outcome single = inr (single_success url t)
      /\ (exists rs, outcome batch = inr (batch_reply rs (length us))
                     /\ nth_error rs i = Some (batch_success url t))
      /\ calls (trace single) = [RequestsGet url 30; PdfplumberOpen b]
      /\ ~ In (PdfReader b) (trace batch))
  /\
  (forall r : option str,
      outcome (extract_text_with_pdfplumber b) = inr r ->
      too_short r = true ->
      calls (trace single) = [RequestsGet url 30; PdfplumberOpen b; PdfReader b]
      /\ In (PdfReader b) (trace batch)
      /\ forall r' : option str,
           outcome (extract_text_with_pypdf2 b) = inr r' ->
           too_short r' = true ->
           (exists n, outcome single = inr (single_unreadable url n))
           /\ (exists rs, outcome batch = inr (batch_reply rs (length us))
                          /\ nth_error rs i =
                             Some (batch_failure url "Could not extract readable text"))).
Proof.
  intros Hd Hd' Hi Hdl Hb single batch. subst single batch.
  apply fetch_of_outcome in Hdl.
  rewrite (extract_pdf_run _ _ Hd), (extract_multiple_run _ _ Hd').
  unfold outcome, trace. cbn [fst snd].
  rewrite single_calls, (pipeline_calls_fetched _ _ Hdl Hb).
  rewrite (single_reply_fetched _ _ Hdl Hb).
  split.
  - intros t Ht Hlen. apply primary_of_outcome in Ht.
    pose proof (long_enough _ Hlen) as Hok.
    unfold App.extracted_text. rewrite Ht, Hok.
    repeat split.
    + apply (primary_text_trimmed b _ Ht).
    + now rewrite single_result_long.
    + exists (map batch_entry us). split; [reflexivity|].
      rewrite (entry_at _ _ _ Hi), (batch_entry_fetched _ _ Hdl Hb).
      unfold App.extracted_text. rewrite Ht, Hok.
      now rewrite batch_result_long.
    + intros Hin.
      assert (Hc : In (PdfReader b) (calls (batch_trace (length us) 0 us)))
        by (apply In_calls; now split).
      rewrite batch_calls in Hc. apply batch_fallback_calls in Hc.
      destruct Hc as (u & _ & _ & _ & Hshort). congruence.
  - intros r Hr Hshort. apply primary_of_outcome in Hr.
    unfold App.extracted_text. rewrite Hr, Hshort.
    repeat split.
    + assert (Hc : In (PdfReader b) (calls (batch_trace (length us) 0 us))).
      { rewrite batch_calls. apply batch_fallback_calls.
        exists url. repeat split; try assumption.
        - eapply nth_error_In; eassumption.
        - now rewrite Hr. }
      now apply In_calls in Hc.
    + exists (len_or_zero r'). apply fallback_of_outcome in H. rewrite H.
      now rewrite single_result_short.
    + exists (map batch_entry us). split; [reflexivity|].
      apply fallback_of_outcome in H.
      rewrite (entry_at _ _ _ Hi), (batch_entry_fetched _ _ Hdl Hb).
      unfold App.extracted_text. rewrite Hr, Hshort, H.
      now rewrite batch_result_short.
Qed.

(** ** The handlers on an arbitrary request *)

Lemma extract_pdf_total (req : Request) :
  exists r : Reply,
    outcome (extract_pdf req) = inr r
    /\ (r = bad_request "Missing 'url' parameter"
        \/ (exists e, r = internal_error e)
        \/ (exists d url, req = inr (JDict d)
                          /\ dict_get (lit "url") d = Some url
                          /\ r = single_reply url)).
Proof.
  destruct req as [e|data].
  - exists (internal_error e). split; [reflexivity|]. right; left. now exists e.
  - destruct data as [|[|]|z|f|s|l|d].
    + eexists; split; [reflexivity | now left].
    + eexists; split; [reflexivity | right; left; eexists; reflexivity].
    + eexists; split; [reflexivity | now left].
    + unfold App.extract_pdf, get_json, missing. cbn [bind truthy].
      destruct (negb (negb (z =? 0)%Z)).
      * eexists; split; [reflexivity | now left].
      * eexists; split; [reflexivity | right; left; eexists; reflexivity].
    + unfold App.extract_pdf, get_json, missing. cbn [bind truthy].
      destruct (negb (negb _)).
      * eexists; split; [reflexivity | now left].
      * eexists; split; [reflexivity | right; left; eexists; reflexivity].
    + unfold App.extract_pdf, get_json, missing. cbn [bind truthy].
      destruct s as [|c s]; cbn [negb].
      * eexists; split; [reflexivity | now left].
      * cbn [contains bind ret]. destruct (str_contains (lit "url") (c :: s)).
        -- eexists; split; [reflexivity | right; left; eexists; reflexivity].
        -- eexists; split; [reflexivity | now left].
    + unfold App.extract_pdf, get_json, missing. cbn [bind truthy].
      destruct l as [|v l]; cbn [negb].
      * eexists; split; [reflexivity | now left].
      * cbn [contains bind ret]. destruct (existsb (str_equals (lit "url")) (v :: l)).
        -- eexists; split; [reflexivity | right; left; eexists; reflexivity].
        -- eexists; split; [reflexivity | now left].
    + destruct (dict_get (lit "url") d) as [url|] eqn:Hd.
      * exists (single_reply url). rewrite (extract_pdf_run _ _ Hd).
        split; [reflexivity|]. right; right. now exists d, url.
      * exists (bad_request "Missing 'url' parameter").
        split; [|now left].
        unfold App.extract_pdf, get_json, missing. cbn [bind truthy].
        destruct d as [|kv d']; [reflexivity|].
        cbn [negb contains bind ret]. now rewrite Hd.
Qed.

Lemma extract_multiple_total (req : Request) :
  exists r : Reply,
    outcome (extract_multiple_pdfs req) = inr r
    /\ (r = bad_request "Missing 'urls' parameter (should be array)"
        \/ r = bad_request "'urls' should be an array"
        \/ (exists e, r = internal_error e)
        \/ (exists d us, req = inr (JDict d)
                         /\ dict_get (lit "urls") d = Some (JList us)
                         /\ r = batch_reply (map batch_entry us) (length us))).
Proof.
  destruct req as [e|data].
  - exists (internal_error e). split; [reflexivity|]. right; right; left. now exists e.
  - destruct data as [|[|]|z|f|s|l|d].
    + eexists; split; [reflexivity | now left].
    + eexists; split; [reflexivity | right; right; left; eexists; reflexivity].
    + eexists; split; [reflexivity | now left].
    + unfold App.extract_multiple_pdfs, get_json, missing. cbn [bind truthy].
      destruct (negb (negb (z =? 0)%Z)).
      * eexists; split; [reflexivity | now left].
      * eexists; split; [reflexivity | right; right; left; eexists; reflexivity].
    + unfold App.extract_multiple_pdfs, get_json, missing. cbn [bind truthy].
      destruct (negb (negb _)).
      * eexists; split; [reflexivity | now left].
      * eexists; split; [reflexivity | right; right; left; eexists; reflexivity].
    + unfold App.extract_multiple_pdfs, get_json, missing. cbn [bind truthy].
      destruct s as [|c s]; cbn [negb].
      * eexists; split; [reflexivity | now left].
      * cbn [contains bind ret]. destruct (str_contains (lit "urls") (c :: s)).
        -- eexists; split; [reflexivity | right; right; left; eexists; reflexivity].
        -- eexists; split; [reflexivity | now left].
    + unfold App.extract_multiple_pdfs, get_json, missing. cbn [bind truthy].
      destruct l as [|v l]; cbn [negb].
      * eexists; split; [reflexivity | now left].
      * cbn [contains bind ret]. destruct (existsb (str_equals (lit "urls")) (v :: l)).
        -- eexists; split; [reflexivity | right; right; left; eexists; reflexivity].
        -- eexists; split; [reflexivity | now left].
    + destruct (dict_get (lit "urls") d) as [urls|] eqn:Hd.
      * destruct (is_list urls) eqn:Hl.
        -- destruct urls as [| | | | |us|]; try discriminate.
           eexists. rewrite (extract_multiple_run _ _ Hd).
           split; [reflexivity|]. right; right; right. now exists d, us.
        -- exists (bad_request "'urls' should be an array").
           split; [|right; now left].
           unfold App.extract_multiple_pdfs, get_json, missing. cbn [bind truthy].
           destruct d as [|kv d']; [discriminate|].
           cbn [negb contains bind ret]. rewrite Hd.
           cbn [negb bind ret getitem]. rewrite Hd.
           destruct urls; try discriminate; reflexivity.
      * exists (bad_request "Missing 'urls' parameter (should be array)").
        split; [|now left].
        unfold App.extract_multiple_pdfs, get_json, missing. cbn [bind truthy].
        destruct d as [|kv d']; [reflexivity|].
        cbn [negb contains bind ret]. now rewrite Hd.
Qed.

(** ** The length gate *)

Lemma single_reply_success (url : json) (r : Reply) :
  r = single_reply url ->
  status r = 200%Z \/ field "success" (body r) = Some (JBool true) ->
  exists t, r = single_success url t /\ 10 <= length (strip t) /\ t <> [].
Proof.
  intros -> H. unfold App.single_reply in *.
  destruct (fetch url) as [[|c b]|].
  - destruct H as [H|H]; discriminate.
  - unfold single_result in *.
    destruct (extracted_text (c :: b)) as [t|] eqn:Et.
    + destruct (too_short (Some t)) eqn:Es.
      * destruct H as [H|H]; discriminate.
      * destruct (too_short_false _ Es) as (t' & [= <-] & Hne & Hlen & _).
        now exists t.
    + destruct H as [H|H]; discriminate.
  - destruct H as [H|H]; discriminate.
Qed.

Lemma batch_entry_success (url : json) :
  field "success" (batch_entry url) = Some (JBool true) ->
  exists t, batch_entry url = batch_success url t
            /\ 10 <= length (strip t) /\ t <> [].
Proof.
  unfold App.batch_entry.
  destruct (fetch url) as [[|c b]|]; try discriminate.
  unfold batch_result.
  destruct (extracted_text (c :: b)) as [t|] eqn:Et; try discriminate.
  destruct (too_short (Some t)) eqn:Es; try discriminate.
  destruct (too_short_false _ Es) as (t' & [= <-] & Hne & Hlen & _).
  intros _. now exists t.
Qed.

(** C2: a reply, or a batch entry, is a success only with a text of trimmed
    length at least 10, which it carries with its length; a URL whose final
    text is absent or shorter is reported as a failure. *)
Theorem success_requires_ten_characters :
  (forall (req : Request) (r : Reply),
      outcome (extract_pdf req) = inr r ->
      status r = 200%Z \/ field "success" (body r) = Some (JBool true) ->
      exists url t, r = single_success url t
                    /\ 10 <= length (strip t) /\ t <> [])
  /\ (forall (req : Request) (r : Reply) (rs : list json),
      outcome (extract_multiple_pdfs req) = inr r ->
      field "results" (body r) = Some (JList rs) ->
      Forall (fun e => field "success" e = Some (JBool true) ->
                       exists url t, e = batch_success url t
                                     /\ 10 <= length (strip t) /\ t <> []) rs)
  /\ (forall (d d' : list (str * json)) (us : list json) (i : nat)
             (url : json) (b : bytes),
      dict_get (lit "url") d = Some url ->
      dict_get (lit "urls") d' = Some (JList us) ->
      nth_error us i = Some url ->
      outcome (download_pdf url) = inr (Some b) ->
      b <> [] ->
      too_short (extracted_text b) = true ->
      (exists n, outcome (extract_pdf (inr (JDict d)))
                 = inr (single_unreadable url n))
      /\ (exists rs, outcome (extract_multiple_pdfs (inr (JDict d')))
                     = inr (batch_reply rs (length us))
                     /\ nth_error rs i
                        = Some (batch_failure url "Could not extract readable text"))).
Proof.
  split; [|split].
  - intros req r Hr Hs.
    destruct (extract_pdf_total req) as (r' & Hr' & Hcase).
    rewrite Hr in Hr'. injection Hr' as <-.
    destruct Hcase as [-> | [[e ->] | (d & url & _ & _ & Hrep)]].
    + destruct Hs as [Hs|Hs]; discriminate.
    + destruct Hs as [Hs|Hs]; discriminate.
    + exists url. now apply single_reply_success.
  - intros req r rs Hr Hrs.
    destruct (extract_multiple_total req) as (r' & Hr' & Hcase).
    rewrite Hr in Hr'. injection Hr' as <-.
    destruct Hcase as [-> | [-> | [[e ->] | (d & us & _ & _ & ->)]]];
      try discriminate.
    injection Hrs as <-.
    apply Forall_forall. intros e He Hs.
    apply in_map_iff in He. destruct He as (url & <- & _).
    exists url. now apply batch_entry_success.
  - intros d d' us i url b Hd Hd' Hi Hdl Hb Hshort.
    apply fetch_of_outcome in Hdl.
    rewrite (extract_pdf_run _ _ Hd), (extract_multiple_run _ _ Hd').
    unfold outcome. cbn [snd]. split.
    + exists (len_or_zero (extracted_text b)).
      rewrite (single_reply_fetched _ _ Hdl Hb).
      now rewrite single_result_short.
    + exists (map batch_entry us). split; [reflexivity|].
      rewrite (entry_at _ _ _ Hi), (batch_entry_fetched _ _ Hdl Hb).
      now rewrite batch_result_short.
Qed.

(** ** The batch *)

Lemma gets_app (a b : list event) : gets (a ++ b) = gets a ++ gets b.
Proof. apply flat_map_app. Qed.

Lemma gets_calls (t : list event) : gets (calls t) = gets t.
Proof.
  induction t as [|ev t IH]; [reflexivity|].
  destruct ev; simpl; now rewrite <- ?IH.
Qed.

Lemma gets_pipeline (url : json) : gets (pipeline_calls url) = [url].
Proof.
  unfold App.pipeline_calls.
  destruct (fetch url) as [[|c b]|]; try reflexivity.
  now destruct (too_short (primary_text (c :: b))).
Qed.

Lemma gets_batch (us : list json) : gets (flat_map pipeline_calls us) = us.
Proof.
  induction us as [|url rest IH]; [reflexivity|].
  cbn [flat_map]. now rewrite gets_app, gets_pipeline, IH.
Qed.

Lemma batch_entry_url (url : json) : field "url" (batch_entry url) = Some url.
Proof.
  unfold App.batch_entry.
  destruct (fetch url) as [[|c b]|]; try reflexivity.
  unfold batch_result.
  destruct (extracted_text (c :: b)) as [t|]; [|reflexivity].
  now destruct (too_short (Some t)).
Qed.

(** C3: for a list of N URLs the batch reply holds N results, the result at
    position i being the one of the URL at position i; every URL is
    requested, in input order, whatever the fate of the others; and
    [total_processed] is N. *)
Theorem batch_covers_every_url (d : list (str * json)) (us : list json) :
  dict_get (lit "urls") d = Some (JList us) ->
  let batch := extract_multiple_pdfs (inr (JDict d)) in
  exists (r : Reply) (rs : list json),
    outcome batch = inr r
    /\ status r = 200%Z
    /\ field "results" (body r) = Some (JList rs)
    /\ field "total_processed" (body r) = Some (JInt (Z.of_nat (length us)))
    /\ length rs = length us
    /\ (forall i url, nth_error us i = Some url ->
          nth_error rs i = Some (batch_entry url)
          /\ field "url" (batch_entry url) = Some url)
    /\ gets (trace batch) = us.
Proof.
  intros Hd batch. subst batch.
  exists (batch_reply (map batch_entry us) (length us)), (map batch_entry us).
  rewrite (extract_multiple_run _ _ Hd). unfold outcome, trace. cbn [fst snd].
  repeat split.
  - apply length_map.
  - now apply entry_at.
  - apply batch_entry_url.
  - now rewrite <- gets_calls, batch_calls, gets_batch.
Qed.

(** ** Unreadable documents *)

(** C4 (amended): when both extractors fail or yield less than 10 trimmed
    characters, the single-URL endpoint answers 400 with the reason
    "Could not extract readable text from PDF", the URL and the length of
    the fallback text; the batch endpoint records the reason
    "Could not extract readable text" for that URL; neither raises. *)
Theorem unreadable_document_reasons
    (d d' : list (str * json)) (us : list json) (i : nat)
    (url : json) (b : bytes) (r r' : option str) :
  dict_get (lit "url") d = Some url ->
  dict_get (lit "urls") d' = Some (JList us) ->
  nth_error us i = Some url ->
  outcome (download_pdf url) = inr (Some b) ->
  b <> [] ->
  outcome (extract_text_with_pdfplumber b) = inr r -> too_short r = true ->
  outcome (extract_text_with_pypdf2 b) = inr r' -> too_short r' = true ->
  outcome (extract_pdf (inr (JDict d)))
  = inr (mkReply
           (jsonify [("error", jstr "Could not extract readable text from PDF");
                     ("url", url);
                     ("extracted_length", jlen (len_or_zero r'))])
           400)
  /\ exists rs,
       outcome (extract_multiple_pdfs (inr (JDict d')))
       = inr (batch_reply rs (length us))
       /\ nth_error rs i
          = Some (dict [("url", url);
                        ("success", JBool false);
                        ("error", jstr "Could not extract readable text")]).
Proof.
  intros Hd Hd' Hi Hdl Hb Hr Hs Hr' Hs'.
  apply fetch_of_outcome in Hdl.
  apply primary_of_outcome in Hr. apply fallback_of_outcome in Hr'.
  assert (He : extracted_text b = r')
    by (unfold App.extracted_text; now rewrite Hr, Hs).
  rewrite (extract_pdf_run _ _ Hd), (extract_multiple_run _ _ Hd').
  unfold outcome. cbn [snd]. split.
  - rewrite (single_reply_fetched _ _ Hdl Hb), He.
    now rewrite single_result_short.
  - exists (map batch_entry us). split; [reflexivity|].
    rewrite (entry_at _ _ _ Hi), (batch_entry_fetched _ _ Hdl Hb), He.
    now rewrite batch_result_short.
Qed.

(** ** Request validation *)

(** C5: an empty body (the empty object, or any other falsy value) and an
    object without the key [url] get 400 and "Missing 'url' parameter" from
    /extract-pdf; an object whose [urls] is not a list gets 400 and
    "'urls' should be an array" from /extract-multiple. *)
Theorem missing_or_ill_typed_parameter :
  (forall data : json,
      truthy data = false ->
      extract_pdf (inr data)
      = ([], inr (mkReply (jsonify [("error", jstr "Missing 'url' parameter")])
                          400)))
  /\ (forall d : list (str * json),
      dict_get (lit "url") d = None ->
      extract_pdf (inr (JDict d))
      = ([], inr (mkReply (jsonify [("error", jstr "Missing 'url' parameter")])
                          400)))
  /\ (forall (d : list (str * json)) (v : json),
      dict_get (lit "urls") d = Some v ->
      is_list v = false ->
      extract_multiple_pdfs (inr (JDict d))
      = ([], inr (mkReply (jsonify [("error", jstr "'urls' should be an array")])
                          400))).
Proof.
  split; [|split].
  - intros data H. unfold App.extract_pdf, get_json, missing. cbn [bind].
    now rewrite H.
  - intros d Hd. unfold App.extract_pdf, get_json, missing. cbn [bind truthy].
    destruct d as [|kv d']; [reflexivity|].
    cbn [negb contains bind ret]. now rewrite Hd.
  - intros d v Hd Hv.
    unfold App.extract_multiple_pdfs, get_json, missing. cbn [bind truthy].
    destruct d as [|kv d']; [discriminate|].
    cbn [negb contains bind ret]. rewrite Hd.
    cbn [negb bind ret getitem]. rewrite Hd.
    destruct v; try discriminate; reflexivity.
Qed.

Lemma falsy_body_is_missing (key : str) (data : json) :
  truthy data = false -> missing key data = ret true.
Proof. intros H. unfold missing. now rewrite H. Qed.

Lemma absent_key_is_missing (key : str) (d : list (str * json)) :
  dict_get key d = None -> missing key (JDict d) = ret true.
Proof.
  intros H. unfold missing. destruct d as [|kv d']; [reflexivity|].
  cbn [truthy negb contains bind ret]. now rewrite H.
Qed.

(** C8 (amended): a body that parses to a falsy value, or to an object
    without the required key, is answered 400 with an [error] field by both
    endpoints, as is a [urls] that is not a list; a body that cannot be
    parsed, for which [get_json] raises, is answered 500 with the error
    "Internal server error: ..." by both. *)
Theorem body_validation_400_parse_failure_500 :
  (forall data : json,
      truthy data = false ->
      outcome (extract_pdf (inr data))
      = inr (bad_request "Missing 'url' parameter")
      /\ outcome (extract_multiple_pdfs (inr data))
         = inr (bad_request "Missing 'urls' parameter (should be array)"))
  /\ (forall d : list (str * json),
      dict_get (lit "url") d = None ->
      outcome (extract_pdf (inr (JDict d)))
      = inr (bad_request "Missing 'url' parameter"))
  /\ (forall d : list (str * json),
      dict_get (lit "urls") d = None ->
      outcome (extract_multiple_pdfs (inr (JDict d)))
      = inr (bad_request "Missing 'urls' parameter (should be array)"))
  /\ (forall (d : list (str * json)) (v : json),
      dict_get (lit "urls") d = Some v ->
      is_list v = false ->
      outcome (extract_multiple_pdfs (inr (JDict d)))
      = inr (bad_request "'urls' should be an array"))
  /\ (forall e : exn,
      outcome (extract_pdf (inl e)) = inr (internal_error e)
      /\ outcome (extract_multiple_pdfs (inl e)) = inr (internal_error e)
      /\ status (internal_error e) = 500%Z
      /\ field "error" (body (internal_error e))
         = Some (JStr (lit "Internal server error: " ++ exn_str e))).
Proof.
  split; [|split; [|split; [|split]]].
  - intros data H. split.
    + unfold App.extract_pdf, get_json. cbn [bind].
      now rewrite (falsy_body_is_missing _ _ H).
    + unfold App.extract_multiple_pdfs, get_json. cbn [bind].
      now rewrite (falsy_body_is_missing _ _ H).
  - intros d H. unfold App.extract_pdf, get_json. cbn [bind].
    now rewrite (absent_key_is_missing _ _ H).
  - intros d H. unfold App.extract_multiple_pdfs, get_json. cbn [bind].
    now rewrite (absent_key_is_missing _ _ H).
  - intros d v Hd Hv.
    destruct (extract_multiple_total (inr (JDict d))) as (r & Hr & Hcase).
    rewrite Hr. f_equal.
    unfold App.extract_multiple_pdfs, get_json, missing in Hr.
    destruct d as [|kv d']; [discriminate|].
    cbn [truthy negb contains bind ret] in Hr. rewrite Hd in Hr.
    cbn [negb bind ret getitem] in Hr. rewrite Hd in Hr.
    destruct v; try discriminate; now injection Hr as <-.
  - intros e. repeat split.
Qed.

(** ** The fetcher *)

Lemma raise_for_status_rejects (resp : Response) :
  (exists e, outcome (raise_for_status resp) = inl e) <->
  (400 <= status_code resp < 600)%Z.
Proof.
  unfold raise_for_status.
  destruct ((400 <=? status_code resp)%Z && (status_code resp <? 600)%Z) eqn:E.
  - apply andb_true_iff in E. destruct E as [E1 E2].
    apply Z.leb_le in E1. apply Z.ltb_lt in E2.
    split; [lia | intros _; eexists; reflexivity].
  - apply andb_false_iff in E. split.
    + intros [e He]. discriminate.
    + intros [H1 H2]. destruct E as [E|E];
        [apply Z.leb_gt in E | apply Z.ltb_ge in E]; lia.
Qed.

Lemma download_failed (url : json) (e : exn) :
  requests_get url 30 = inl e \/
  (exists resp, requests_get url 30 = inr resp
                /\ outcome (raise_for_status resp) = inl e) ->
  download_pdf url = ([RequestsGet url 30; Log ERROR (DownloadFailed e)], inr None).
Proof.
  unfold App.download_pdf. intros [H | (resp & H & Hs)]; rewrite H.
  - reflexivity.
  - cbn [bind]. unfold raise_for_status in *.
    destruct ((400 <=? status_code resp)%Z && (status_code resp <? 600)%Z);
      [|discriminate].
    injection Hs as <-. reflexivity.
Qed.

Lemma download_passed (url : json) (resp : Response) :
  requests_get url 30 = inr resp ->
  outcome (raise_for_status resp) = inr tt ->
  let content_type := lower (headers_get "content-type" "" (headers resp)) in
  download_pdf url =
  (RequestsGet url 30 ::
     (if str_contains (lit "pdf") (lit content_type) then []
      else [Log WARNING (ContentTypeNotPdf content_type)]),
   inr (Some (content resp))).
Proof.
  intros H Hs. unfold App.download_pdf. rewrite H. cbn [bind].
  unfold raise_for_status in *.
  destruct ((400 <=? status_code resp)%Z && (status_code resp <? 600)%Z);
    [discriminate|].
  cbn [bind ret app].
  destruct (str_contains _ _); reflexivity.
Qed.

(** C6 (amended): the fetcher issues one GET with a 30-second timeout; when
    the request raises (network error, timeout) or the status is a client
    or server error, 400 to 599, which is what [raise_for_status] rejects,
    it returns no bytes, and /extract-pdf then answers 400
    "Failed to download PDF" with the URL; for any other status the body is
    returned, and a content type without "pdf" costs a warning only: the
    body, when not empty, is handed to the primary extractor. *)
Theorem fetcher_contract (url : json) :
  (exists logs, trace (download_pdf url) = RequestsGet url 30 :: logs
                /\ calls logs = [])
  /\ (forall e, requests_get url 30 = inl e ->
        download_pdf url
        = ([RequestsGet url 30; Log ERROR (DownloadFailed e)], inr None))
  /\ (forall resp, requests_get url 30 = inr resp ->
        (400 <= status_code resp < 600)%Z ->
        exists e, download_pdf url
                  = ([RequestsGet url 30; Log ERROR (DownloadFailed e)], inr None))
  /\ (forall d, dict_get (lit "url") d = Some url ->
        outcome (download_pdf url) = inr None ->
        outcome (extract_pdf (inr (JDict d)))
        = inr (mkReply (jsonify [("error", jstr "Failed to download PDF");
                                 ("url", url)]) 400))
  /\ (forall resp, requests_get url 30 = inr resp ->
        ~ (400 <= status_code resp < 600)%Z ->
        let content_type := lower (headers_get "content-type" "" (headers resp)) in
        download_pdf url
        = (RequestsGet url 30 ::
             (if str_contains (lit "pdf") (lit content_type) then []
              else [Log WARNING (ContentTypeNotPdf content_type)]),
           inr (Some (content resp)))
        /\ forall d, dict_get (lit "url") d = Some url ->
             content resp <> [] ->
             In (PdfplumberOpen (content resp))
                (trace (extract_pdf (inr (JDict d))))).
Proof.
  split; [|split; [|split; [|split]]].
  - unfold trace, App.download_pdf.
    destruct (requests_get url 30) as [e|resp]; cbn [bind try_except fst].
    + eexists; split; [reflexivity|reflexivity].
    + unfold raise_for_status.
      destruct ((400 <=? status_code resp)%Z && (status_code resp <? 600)%Z).
      * eexists; split; reflexivity.
      * cbn [bind ret app].
        destruct (negb _); eexists; split; reflexivity.
  - intros e H. apply download_failed. now left.
  - intros resp H Hs. apply raise_for_status_rejects in Hs.
    destruct Hs as [e He]. exists e. apply download_failed.
    right. now exists resp.
  - intros d Hd Hdl. apply fetch_of_outcome in Hdl.
    rewrite (extract_pdf_run _ _ Hd). unfold outcome, App.single_reply.
    cbn [snd]. now rewrite Hdl.
  - intros resp H Hst content_type.
    assert (Hs : outcome (raise_for_status resp) = inr tt).
    { destruct (raise_for_status resp) as [t [e|[]]] eqn:E; [|reflexivity].
      destruct Hst. apply raise_for_status_rejects. exists e. now rewrite E. }
    split.
    + now apply download_passed.
    + intros d Hd Hne.
      pose proof (download_passed _ _ H Hs) as Hrun. cbn zeta in Hrun.
      assert (Hf : fetch url = Some (content resp))
        by (apply fetch_of_outcome; now rewrite Hrun).
      assert (Hc : In (PdfplumberOpen (content resp))
                      (calls (trace (extract_pdf (inr (JDict d)))))).
      { rewrite (extract_pdf_run _ _ Hd). unfold trace. cbn [fst].
        rewrite single_calls, (pipeline_calls_fetched _ _ Hf Hne).
        simpl. auto. }
      now apply In_calls in Hc.
Qed.

(** ** Empty downloads *)

Lemma extraction_needs_bytes (us : list json) (b : bytes) :
  In (PdfplumberOpen b) (flat_map pipeline_calls us) \/
  In (PdfReader b) (flat_map pipeline_calls us) ->
  b <> [].
Proof.
  intros [H|H].
  - apply in_flat_map in H. destruct H as (url & _ & Hc).
    unfold App.pipeline_calls in Hc.
    destruct Hc as [Hc|Hc]; [discriminate|].
    destruct (fetch url) as [[|c r]|]; try contradiction.
    destruct Hc as [Hc|Hc].
    + injection Hc as <-. discriminate.
    + destruct (too_short (primary_text (c :: r))); [|contradiction].
      destruct Hc as [Hc|[]]. discriminate.
  - apply batch_fallback_calls in H. now destruct H as (url & _ & _ & Hb & _).
Qed.

(** C9: a download that succeeds with an empty body is reported by both
    endpoints as "Failed to download PDF", and no extractor is run on it. *)
Theorem empty_body_is_a_download_failure
    (d d' : list (str * json)) (us : list json) (i : nat)
    (url : json) (resp : Response) :
  dict_get (lit "url") d = Some url ->
  dict_get (lit "urls") d' = Some (JList us) ->
  nth_error us i = Some url ->
  requests_get url 30 = inr resp ->
  outcome (raise_for_status resp) = inr tt ->
  content resp = [] ->
  let single := extract_pdf (inr (JDict d)) in
  let batch := extract_multiple_pdfs (inr (JDict d')) in
  outcome single
  = inr (mkReply (jsonify [("error", jstr "Failed to download PDF");
                           ("url", url)]) 400)
  /\ calls (trace single) = [RequestsGet url 30]
  /\ (exists rs, outcome batch = inr (batch_reply rs (length us))
                 /\ nth_error rs i
                    = Some (dict [("url", url);
                                  ("success", JBool false);
                                  ("error", jstr "Failed to download PDF")]))
  /\ ~ In (PdfplumberOpen []) (trace batch)
  /\ ~ In (PdfReader []) (trace batch).
Proof.
  intros Hd Hd' Hi H Hs Hc single batch. subst single batch.
  pose proof (download_passed _ _ H Hs) as Hrun. cbn zeta in Hrun.
  assert (Hf : fetch url = Some [])
    by (apply fetch_of_outcome; now rewrite Hrun, Hc).
  rewrite (extract_pdf_run _ _ Hd), (extract_multiple_run _ _ Hd').
  unfold outcome, trace. cbn [fst snd].
  rewrite single_calls. unfold App.single_reply, App.pipeline_calls.
  rewrite Hf. repeat split.
  - exists (map batch_entry us). split; [reflexivity|].
    rewrite (entry_at _ _ _ Hi). unfold App.batch_entry. now rewrite Hf.
  - intros Hin.
    apply (extraction_needs_bytes us []); [|reflexivity].
    left. rewrite <- (batch_calls (length us) 0). apply In_calls. now split.
  - intros Hin.
    apply (extraction_needs_bytes us []); [|reflexivity].
    right. rewrite <- (batch_calls (length us) 0). apply In_calls. now split.
Qed.

(** ** The fallback replaces the primary text *)

(** C10: once the fallback extractor has been called, the reply is computed
    from its text alone: a success carries the fallback text, a failure of
    /extract-pdf carries that text's length, or 0 when there is none,
    whatever the primary extractor had produced. *)
Theorem fallback_replaces_primary
    (d d' : list (str * json)) (us : list json) (i : nat)
    (url : json) (b : bytes) (r r' : option str) :
  dict_get (lit "url") d = Some url ->
  dict_get (lit "urls") d' = Some (JList us) ->
  nth_error us i = Some url ->
  outcome (download_pdf url) = inr (Some b) ->
  b <> [] ->
  outcome (extract_text_with_pdfplumber b) = inr r -> too_short r = true ->
  outcome (extract_text_with_pypdf2 b) = inr r' ->
  outcome (extract_pdf (inr (JDict d))) = inr (single_result url r')
  /\ (exists rs, outcome (extract_multiple_pdfs (inr (JDict d')))
                 = inr (batch_reply rs (length us))
                 /\ nth_error rs i = Some (batch_result url r'))
  /\ (too_short r' = true ->
      single_result url r'
      = mkReply
          (jsonify [("error", jstr "Could not extract readable text from PDF");
                    ("url", url);
                    ("extracted_length",
                     JInt (match r' with
                           | Some t => Z.of_nat (length t)
                           | None => 0
                           end))])
          400)
  /\ (too_short r' = false ->
      exists t, r' = Some t
                /\ single_result url r' = single_success url t
                /\ batch_result url r' = batch_success url t).
Proof.
  intros Hd Hd' Hi Hdl Hb Hr Hs Hr'.
  apply fetch_of_outcome in Hdl.
  apply primary_of_outcome in Hr. apply fallback_of_outcome in Hr'.
  assert (He : extracted_text b = r')
    by (unfold App.extracted_text; now rewrite Hr, Hs).
  rewrite (extract_pdf_run _ _ Hd), (extract_multiple_run _ _ Hd').
  unfold outcome. cbn [snd].
  rewrite (single_reply_fetched _ _ Hdl Hb), He.
  repeat split.
  - exists (map batch_entry us). split; [reflexivity|].
    now rewrite (entry_at _ _ _ Hi), (batch_entry_fetched _ _ Hdl Hb), He.
  - intros Hs'. rewrite (single_result_short _ _ Hs').
    destruct r' as [[|c t]|]; reflexivity.
  - intros Hs'. destruct (too_short_false _ Hs') as (t & -> & _ & Hlen & _).
    exists t. split; [reflexivity|].
    now rewrite single_result_long, batch_result_long.
Qed.

(** * Further properties of the handlers *)

Lemma extract_pdf_cases (req : Request) :
  (exists d url, req = inr (JDict d) /\ dict_get (lit "url") d = Some url)
  \/ (calls (trace (extract_pdf req)) = []
      /\ (outcome (extract_pdf req) = inr (bad_request "Missing 'url' parameter")
          \/ exists e, outcome (extract_pdf req) = inr (internal_error e))).
Proof.
  destruct req as [e|data].
  - right. split; [reflexivity | right; now exists e].
  - destruct data as [|[|]|z|f|s|l|d].
    + right. split; [reflexivity | now left].
    + right. split; [reflexivity | right; eexists; reflexivity].
    + right. split; [reflexivity | now left].
    + right. unfold App.extract_pdf, get_json, missing. cbn [bind truthy].
      destruct (negb (negb (z =? 0)%Z)).
      * split; [reflexivity | now left].
      * split; [reflexivity | right; eexists; reflexivity].
    + right. unfold App.extract_pdf, get_json, missing. cbn [bind truthy].
      destruct (negb (negb _)).
      * split; [reflexivity | now left].
      * split; [reflexivity | right; eexists; reflexivity].
    + right. unfold App.extract_pdf, get_json, missing. cbn [bind truthy].
      destruct s as [|c s]; cbn [negb].
      * split; [reflexivity | now left].
      * cbn [contains bind ret]. destruct (str_contains (lit "url") (c :: s)).
        -- split; [reflexivity | right; eexists; reflexivity].
        -- split; [reflexivity | now left].
    + right. unfold App.extract_pdf, get_json, missing. cbn [bind truthy].
      destruct l as [|v l]; cbn [negb].
      * split; [reflexivity | now left].
      * cbn [contains bind ret].
        destruct (existsb (str_equals (lit "url")) (v :: l)).
        -- split; [reflexivity | right; eexists; reflexivity].
        -- split; [reflexivity | now left].
    + destruct (dict_get (lit "url") d) as [url|] eqn:Hd.
      * left. now exists d, url.
      * right. unfold App.extract_pdf, get_json, missing. cbn [bind truthy].
        destruct d as [|kv d']; [split; [reflexivity | now left]|].
        cbn [negb contains bind ret]. rewrite Hd.
        split; [reflexivity | now left].
Qed.

Lemma urls_not_a_list (d : list (str * json)) (v : json) :
  dict_get (lit "urls") d = Some v ->
  is_list v = false ->
  outcome (extract_multiple_pdfs (inr (JDict d)))
  = inr (bad_request "'urls' should be an array").
Proof.
  intros Hd Hv.
  unfold App.extract_multiple_pdfs, get_json, missing. cbn [bind truthy].
  destruct d as [|kv d']; [discriminate|].
  cbn [negb contains bind ret]. rewrite Hd.
  cbn [negb bind ret getitem]. rewrite Hd.
  destruct v; try discriminate; reflexivity.
Qed.

Lemma single_reply_shapes (url : json) :
  single_reply url = single_download_failed url
  \/ (exists n, single_reply url = single_unreadable url n)
  \/ (exists t, single_reply url = single_success url t).
Proof.
  unfold App.single_reply.
  destruct (fetch url) as [[|c b]|]; [now left | | now left].
  unfold single_result.
  destruct (extracted_text (c :: b)) as [t|].
  - destruct (too_short (Some t)).
    + right; left; eexists; reflexivity.
    + right; right; eexists; reflexivity.
  - right; left; eexists; reflexivity.
Qed.

(** X1: both view functions always return a reply, never an exception; the
    reply is either 200 with [success: true] and no [error], or 400/500 with
    an [error] string and no [success]. *)
Theorem handlers_always_reply (req : Request) :
  (exists r, outcome (extract_pdf req) = inr r /\ well_formed_reply r)
  /\ (exists r, outcome (extract_multiple_pdfs req) = inr r /\ well_formed_reply r).
Proof.
  split.
  - destruct (extract_pdf_total req) as (r & Hr & Hcase).
    exists r. split; [exact Hr|].
    destruct Hcase as [-> | [[e ->] | (d & url & _ & _ & ->)]].
    + right. repeat split; [now left | eexists; reflexivity].
    + right. repeat split; [now right | eexists; reflexivity].
    + destruct (single_reply_shapes url) as [-> | [[n ->] | [t ->]]].
      * right. repeat split; [now left | eexists; reflexivity].
      * right. repeat split; [now left | eexists; reflexivity].
      * left. repeat split.
  - destruct (extract_multiple_total req) as (r & Hr & Hcase).
    exists r. split; [exact Hr|].
    destruct Hcase as [-> | [-> | [[e ->] | (d & us & _ & _ & ->)]]].
    + right. repeat split; [now left | eexists; reflexivity].
    + right. repeat split; [now left | eexists; reflexivity].
    + right. repeat split; [now right | eexists; reflexivity].
    + left. repeat split.
Qed.

(** X2: a body that is a JSON object is never answered 500, whatever it
    holds and whatever the libraries do; /extract-pdf echoes the value of
    [url] unchanged in every reply about it, and sends no [url] when the key
    is missing. *)
Theorem object_body_is_never_a_server_error (d : list (str * json)) :
  (exists r, outcome (extract_pdf (inr (JDict d))) = inr r
             /\ (status r = 200%Z \/ status r = 400%Z)
             /\ field "url" (body r) = dict_get (lit "url") d)
  /\ (exists r, outcome (extract_multiple_pdfs (inr (JDict d))) = inr r
                /\ (status r = 200%Z \/ status r = 400%Z)).
Proof.
  split.
  - destruct (dict_get (lit "url") d) as [url|] eqn:Hd.
    + exists (single_reply url). rewrite (extract_pdf_run _ _ Hd).
      split; [reflexivity|].
      destruct (single_reply_shapes url) as [-> | [[n ->] | [t ->]]];
        split; try reflexivity; auto.
    + exists (bad_request "Missing 'url' parameter").
      unfold App.extract_pdf, get_json. cbn [bind].
      rewrite (absent_key_is_missing _ _ Hd).
      repeat split. now right.
  - destruct (dict_get (lit "urls") d) as [v|] eqn:Hd.
    + destruct (is_list v) eqn:Hv.
      * destruct v as [| | | | |us|]; try discriminate.
        eexists. rewrite (extract_multiple_run _ _ Hd).
        split; [reflexivity | now left].
      * eexists. rewrite (urls_not_a_list _ _ Hd Hv).
        split; [reflexivity | now right].
    + exists (bad_request "Missing 'urls' parameter (should be array)").
      unfold App.extract_multiple_pdfs, get_json. cbn [bind].
      rewrite (absent_key_is_missing _ _ Hd).
      split; [reflexivity | now right].
Qed.

(** X3: a body that is truthy JSON but not an object is answered 500 when it
    is a number or [true] (the key test raises), and when it is a list
    holding the key or a string containing it (indexing raises); a list or
    string without the key is answered 400. *)
Theorem non_object_body_status :
  (forall data : json,
      truthy data = true ->
      match data with JBool _ | JInt _ | JFloat _ => True | _ => False end ->
      answers (extract_pdf (inr data)) 500
      /\ answers (extract_multiple_pdfs (inr data)) 500)
  /\ (forall l : list json,
      l <> [] ->
      answers (extract_pdf (inr (JList l)))
              (if existsb (str_equals (lit "url")) l then 500 else 400)
      /\ answers (extract_multiple_pdfs (inr (JList l)))
                 (if existsb (str_equals (lit "urls")) l then 500 else 400))
  /\ (forall s : str,
      s <> [] ->
      answers (extract_pdf (inr (JStr s)))
              (if str_contains (lit "url") s then 500 else 400)
      /\ answers (extract_multiple_pdfs (inr (JStr s)))
                 (if str_contains (lit "urls") s then 500 else 400)).
Proof.
  unfold answers. split; [|split].
  - intros data Ht Hs.
    destruct data as [|b|z|f|s|l|d]; try contradiction;
      unfold App.extract_pdf, App.extract_multiple_pdfs, get_json, missing;
      cbn [bind]; rewrite Ht; split; eexists; split; reflexivity.
  - intros l Hl. destruct l as [|v l]; [congruence|].
    unfold App.extract_pdf, App.extract_multiple_pdfs, get_json, missing.
    cbn [bind truthy negb contains ret]. split.
    + destruct (existsb (str_equals (lit "url")) (v :: l));
        eexists; split; reflexivity.
    + destruct (existsb (str_equals (lit "urls")) (v :: l));
        eexists; split; reflexivity.
  - intros s Hs. destruct s as [|c s]; [congruence|].
    unfold App.extract_pdf, App.extract_multiple_pdfs, get_json, missing.
    cbn [bind truthy negb contains ret]. split.
    + destruct (str_contains (lit "url") (c :: s));
        eexists; split; reflexivity.
    + destruct (str_contains (lit "urls") (c :: s));
        eexists; split; reflexivity.
Qed.

(** X4: /extract-pdf makes no library call for a request without a [url]
    to fetch; for an object with the key [url] it issues exactly one GET,
    with timeout 30, for its value, and nothing more when that returns no
    bytes; otherwise one pdfplumber call on the bytes follows, and one
    PyPDF2 call on the same bytes exactly when the primary text is too
    short. *)
Theorem single_request_call_discipline (req : Request) :
  let cs := calls (trace (extract_pdf req)) in
  ((forall d v, req = inr (JDict d) -> dict_get (lit "url") d <> Some v) ->
   cs = [])
  /\ (forall d v,
        req = inr (JDict d) ->
        dict_get (lit "url") d = Some v ->
        exists o,
          outcome (download_pdf v) = inr o
          /\ match o with
             | None | Some [] => cs = [RequestsGet v 30]
             | Some b =>
                 exists r,
                   outcome (extract_text_with_pdfplumber b) = inr r
                   /\ cs = RequestsGet v 30 :: PdfplumberOpen b ::
                           (if too_short r then [PdfReader b] else [])
             end).
Proof.
  intros cs. subst cs. split.
  - intros Hno.
    destruct (extract_pdf_cases req) as [(d & v & -> & Hd) | [Hc _]];
      [|exact Hc].
    now destruct (Hno d v eq_refl).
  - intros d v -> Hd.
    rewrite (extract_pdf_run _ _ Hd). unfold trace. cbn [fst].
    rewrite single_calls. unfold App.pipeline_calls.
    exists (fetch v). split; [now rewrite download_run|].
    destruct (fetch v) as [[|c b]|]; try reflexivity.
    exists (primary_text (c :: b)). split; [now rewrite plumber_run|].
    reflexivity.
Qed.

(** ** The lengths a reply reports *)

Lemma extracted_text_trimmed (b : bytes) (t : str) :
  extracted_text b = Some t -> strip t = t.
Proof.
  unfold App.extracted_text.
  destruct (too_short (primary_text b)).
  - apply fallback_text_trimmed.
  - apply primary_text_trimmed.
Qed.

Lemma short_trimmed_text (r : option str) :
  too_short r = true ->
  (forall t, r = Some t -> strip t = t) ->
  len_or_zero r <= 9.
Proof.
  destruct r as [[|c t]|]; simpl; try lia.
  intros H Ht. rewrite (Ht _ eq_refl) in H.
  apply Nat.ltb_lt in H. simpl in H. lia.
Qed.

(** X5: the [length] of a success, in /extract-pdf and in every batch entry,
    is the length of its [text], which has no surrounding whitespace, and is
    at least 10; the [extracted_length] of a failure is at most 9. *)
Theorem reported_lengths :
  (forall (req : Request) (r : Reply),
      outcome (extract_pdf req) = inr r ->
      (forall n, field "length" (body r) = Some (JInt n) ->
         (10 <= n)%Z
         /\ exists t, field "text" (body r) = Some (JStr t)
                      /\ n = Z.of_nat (length t) /\ strip t = t)
      /\ (forall n, field "extracted_length" (body r) = Some (JInt n) ->
            (0 <= n <= 9)%Z))
  /\ (forall (req : Request) (r : Reply) (rs : list json) (e : json) (n : Z),
      outcome (extract_multiple_pdfs req) = inr r ->
      field "results" (body r) = Some (JList rs) ->
      In e rs ->
      field "length" e = Some (JInt n) ->
      (10 <= n)%Z
      /\ exists t, field "text" e = Some (JStr t)
                   /\ n = Z.of_nat (length t) /\ strip t = t).
Proof.
  split.
  - intros req r Hr.
    destruct (extract_pdf_total req) as (r' & Hr' & Hcase).
    rewrite Hr in Hr'. injection Hr' as <-.
    destruct Hcase as [-> | [[e ->] | (d & url & _ & _ & ->)]];
      [split; intros n; discriminate | split; intros n; discriminate |].
    unfold App.single_reply.
    destruct (fetch url) as [[|c b]|];
      [split; intros n; discriminate | | split; intros n; discriminate].
    unfold single_result.
    pose proof (extracted_text_trimmed (c :: b)) as Htrim.
    destruct (extracted_text (c :: b)) as [t|] eqn:Et.
    + destruct (too_short (Some t)) eqn:Es.
      * split; intros n; [discriminate|].
        intros [= <-].
        pose proof (short_trimmed_text (Some t) Es) as Hlen.
        assert (len_or_zero (Some t) <= 9)
          by (apply Hlen; intros t' [= <-]; now apply Htrim).
        unfold len_or_zero in H. destruct t; simpl in *; lia.
      * destruct (too_short_false _ Es) as (t' & [= <-] & _ & Hlen & _).
        split; intros n; [|discriminate].
        intros [= <-]. rewrite (Htrim _ eq_refl) in Hlen.
        split; [lia|]. exists t. repeat split. now apply Htrim.
    + split; intros n; [discriminate|]. intros [= <-]. simpl. lia.
  - intros req r rs e n Hr Hrs He Hn.
    destruct (extract_multiple_total req) as (r' & Hr' & Hcase).
    rewrite Hr in Hr'. injection Hr' as <-.
    destruct Hcase as [-> | [-> | [[x ->] | (d & us & _ & _ & ->)]]];
      try discriminate.
    injection Hrs as <-.
    apply in_map_iff in He. destruct He as (url & <- & _).
    revert Hn. unfold App.batch_entry.
    destruct (fetch url) as [[|c b]|]; try discriminate.
    unfold batch_result.
    pose proof (extracted_text_trimmed (c :: b)) as Htrim.
    destruct (extracted_text (c :: b)) as [t|] eqn:Et; try discriminate.
    destruct (too_short (Some t)) eqn:Es; try discriminate.
    destruct (too_short_false _ Es) as (t' & [= <-] & _ & Hlen & _).
    intros [= <-]. rewrite (Htrim _ eq_refl) in Hlen.
    split; [lia|]. exists t. repeat split. now apply Htrim.
Qed.

(** ** What trimming removes *)

Lemma lstrip_split (s : str) :
  exists a, s = a ++ lstrip s /\ blank a = true.
Proof.
  induction s as [|c s (a & Ha & Hb)]; [now exists []|].
  simpl. destruct (isspace c) eqn:E.
  - exists (c :: a). simpl. rewrite E, Hb. split; [now f_equal | reflexivity].
  - now exists [].
Qed.

Lemma blank_rev (s : str) : blank s = true -> blank (rev s) = true.
Proof.
  unfold blank. rewrite !forallb_forall. intros H x Hx.
  apply H. now apply in_rev.
Qed.

Lemma rstrip_split (s : str) :
  exists z, s = rstrip s ++ z /\ blank z = true.
Proof.
  unfold rstrip. destruct (lstrip_split (rev s)) as (a & Ha & Hb).
  exists (rev a). split; [|now apply blank_rev].
  rewrite <- rev_app_distr, <- Ha. now rewrite rev_involutive.
Qed.

Lemma strip_split (s : str) :
  exists a z, s = a ++ strip s ++ z /\ blank a = true /\ blank z = true.
Proof.
  destruct (lstrip_split s) as (a & Ha & Hb).
  destruct (rstrip_split (lstrip s)) as (z & Hz & Hc).
  exists a, z. unfold strip. repeat split; try assumption.
  now rewrite <- Hz.
Qed.

Lemma strip_ends_clean (s r : str) (c : char) :
  strip s = r ++ [c] -> isspace c = false.
Proof.
  unfold strip, rstrip. intros H.
  apply (f_equal (@rev char)) in H.
  rewrite rev_involutive, rev_app_distr in H. simpl in H.
  pose proof (lstrip_clean (rev (lstrip s))) as Hc.
  now rewrite H in Hc.
Qed.

Lemma lstrip_blank (s : str) : blank s = true -> lstrip s = [].
Proof.
  induction s as [|c s IH]; [reflexivity|].
  simpl. intros H. apply andb_true_iff in H. destruct H as [Hc Hs].
  rewrite Hc. now apply IH.
Qed.

Lemma strip_blank (s : str) : blank s = true -> strip s = [].
Proof. intros H. unfold strip. now rewrite (lstrip_blank _ H). Qed.

Lemma blank_app (a b : str) :
  blank (a ++ b) = blank a && blank b.
Proof. apply forallb_app. Qed.

Lemma join_blank (l : list str) :
  (forall t, In t l -> blank t = true) -> blank (join newline l) = true.
Proof.
  induction l as [|x [|y r] IH]; intros H; [reflexivity | |].
  - apply H. now left.
  - change (join newline (x :: y :: r)) with (x ++ newline ++ join newline (y :: r)).
    rewrite !blank_app. rewrite (H x) by now left.
    rewrite IH by (intros t Ht; apply H; now right). reflexivity.
Qed.

Lemma nonempty_texts_in (texts : list (option str)) (t : str) :
  In t (nonempty_texts texts) -> In (Some t) texts.
Proof.
  induction texts as [|[[|c s]|] r IH]; simpl; intros H; auto.
  destruct H as [<- | H]; auto.
Qed.

(** ** Further properties of the extractors *)

Lemma plumber_reads_all (b : bytes) (texts : list (option str)) :
  pdfplumber_open b = inr (map inr texts) ->
  outcome (extract_text_with_pdfplumber b) = inr (Some (document_text texts)).
Proof.
  intros H. unfold outcome, App.extract_text_with_pdfplumber. rewrite H.
  cbn [bind]. rewrite pages_loop_texts. cbn [bind ret try_except app snd].
  unfold document_text. now rewrite strip_terminated.
Qed.

Lemma pypdf2_reads_all (b : bytes) (texts : list (option str)) :
  PyPDF2_PdfReader b = inr (map inr texts) ->
  outcome (extract_text_with_pypdf2 b) = inr (Some (document_text texts)).
Proof.
  intros H. unfold outcome, App.extract_text_with_pypdf2. rewrite H.
  cbn [bind]. rewrite pages_loop_texts. cbn [bind ret try_except app snd].
  unfold document_text. now rewrite strip_terminated.
Qed.

Lemma plumber_reads_all_run (b : bytes) (texts : list (option str)) :
  pdfplumber_open b = inr (map inr texts) ->
  extract_text_with_pdfplumber b
  = ([PdfplumberOpen b], inr (Some (document_text texts))).
Proof.
  intros H. unfold App.extract_text_with_pdfplumber. rewrite H.
  cbn [bind]. rewrite pages_loop_texts. cbn [bind ret try_except app].
  unfold document_text. now rewrite strip_terminated.
Qed.

Lemma pypdf2_reads_all_run (b : bytes) (texts : list (option str)) :
  PyPDF2_PdfReader b = inr (map inr texts) ->
  extract_text_with_pypdf2 b
  = ([PdfReader b], inr (Some (document_text texts))).
Proof.
  intros H. unfold App.extract_text_with_pypdf2. rewrite H.
  cbn [bind]. rewrite pages_loop_texts. cbn [bind ret try_except app].
  unfold document_text. now rewrite strip_terminated.
Qed.

Lemma extractor_output_is_stripped (b : bytes) (t : str) :
  outcome (extract_text_with_pdfplumber b) = inr (Some t)
  \/ outcome (extract_text_with_pypdf2 b) = inr (Some t) ->
  exists text, t = strip text.
Proof.
  unfold outcome, App.extract_text_with_pdfplumber, App.extract_text_with_pypdf2.
  intros [H|H].
  - destruct (pdfplumber_open b) as [e|ps]; simpl in H; [discriminate|].
    destruct (pages_loop ps []) as [tr [e|x]]; simpl in H; [discriminate|].
    injection H as <-. now exists x.
  - destruct (PyPDF2_PdfReader b) as [e|ps]; simpl in H; [discriminate|].
    destruct (pages_loop ps []) as [tr [e|x]]; simpl in H; [discriminate|].
    injection H as <-. now exists x.
Qed.

(** X6: a text returned by either extractor neither starts nor ends with a
    whitespace character, so trimming it again changes nothing. *)
Theorem extractor_text_has_no_surrounding_whitespace (b : bytes) (t : str) :
  outcome (extract_text_with_pdfplumber b) = inr (Some t)
  \/ outcome (extract_text_with_pypdf2 b) = inr (Some t) ->
  strip t = t
  /\ (forall c r, t = c :: r -> isspace c = false)
  /\ (forall c r, t = r ++ [c] -> isspace c = false).
Proof.
  intros H. destruct (extractor_output_is_stripped b t H) as [text ->].
  split; [apply strip_idem | split].
  - intros c r Hc. pose proof (strip_clean text) as Hs. now rewrite Hc in Hs.
  - intros c r Hc. now apply (strip_ends_clean text r c).
Qed.

(** X7: when every page is read, the extractor's text is the page texts
    joined by newlines with nothing but whitespace cut off at both ends: no
    other character of any page is lost, moved or added. *)
Theorem extraction_keeps_page_content (b : bytes) (texts : list (option str)) :
  (pdfplumber_open b = inr (map inr texts) ->
   exists a t z,
     outcome (extract_text_with_pdfplumber b) = inr (Some t)
     /\ join newline (nonempty_texts texts) = a ++ t ++ z
     /\ blank a = true /\ blank z = true)
  /\ (PyPDF2_PdfReader b = inr (map inr texts) ->
      exists a t z,
        outcome (extract_text_with_pypdf2 b) = inr (Some t)
        /\ join newline (nonempty_texts texts) = a ++ t ++ z
        /\ blank a = true /\ blank z = true).
Proof.
  split; intros H;
    destruct (strip_split (join newline (nonempty_texts texts)))
      as (a & z & Hs & Ha & Hz);
    exists a, (document_text texts), z; repeat split; try assumption.
  - now apply plumber_reads_all.
  - now apply pypdf2_reads_all.
Qed.

(** X8: a document all of whose pages yield no text or whitespace only makes
    each extractor return the empty string rather than fail, its trace
    holding the library call and no log record; when both do,
    /extract-pdf reports it unreadable with [extracted_length] 0. *)
Theorem blank_document_is_unreadable
    (b : bytes) (texts texts' : list (option str))
    (d : list (str * json)) (url : json) :
  (forall t, In (Some t) texts -> blank t = true) ->
  (forall t, In (Some t) texts' -> blank t = true) ->
  pdfplumber_open b = inr (map inr texts) ->
  PyPDF2_PdfReader b = inr (map inr texts') ->
  extract_text_with_pdfplumber b = ([PdfplumberOpen b], inr (Some []))
  /\ extract_text_with_pypdf2 b = ([PdfReader b], inr (Some []))
  /\ (dict_get (lit "url") d = Some url ->
      outcome (download_pdf url) = inr (Some b) ->
      b <> [] ->
      outcome (extract_pdf (inr (JDict d))) = inr (single_unreadable url 0)).
Proof.
  intros Hb Hb' Hp Hf.
  assert (Ht : document_text texts = []).
  { unfold document_text. apply strip_blank, join_blank.
    intros t Ht. apply Hb. now apply nonempty_texts_in. }
  assert (Ht' : document_text texts' = []).
  { unfold document_text. apply strip_blank, join_blank.
    intros t Ht0. apply Hb'. now apply nonempty_texts_in. }
  pose proof (plumber_reads_all_run _ _ Hp) as H1. rewrite Ht in H1.
  pose proof (pypdf2_reads_all_run _ _ Hf) as H2. rewrite Ht' in H2.
  repeat split; try assumption.
  intros Hd Hdl Hne. apply fetch_of_outcome in Hdl.
  assert (P1 : primary_text b = Some [])
    by (apply primary_of_outcome; now rewrite H1).
  assert (P2 : fallback_text b = Some [])
    by (apply fallback_of_outcome; now rewrite H2).
  rewrite (extract_pdf_run _ _ Hd). unfold outcome. cbn [snd].
  rewrite (single_reply_fetched _ _ Hdl Hne).
  unfold App.extracted_text. rewrite P1. cbn [too_short]. now rewrite P2.
Qed.







(** ** Further properties of the batch *)

(** X10: the batch treats its URLs one after the other and independently:
    the results, and the library calls, of a list [us1 ++ us2] are those of
    [us1] followed by those of [us2]. *)
Theorem batch_of_concatenation
    (d d1 d2 : list (str * json)) (us1 us2 : list json) :
  dict_get (lit "urls") d = Some (JList (us1 ++ us2)) ->
  dict_get (lit "urls") d1 = Some (JList us1) ->
  dict_get (lit "urls") d2 = Some (JList us2) ->
  let whole := extract_multiple_pdfs (inr (JDict d)) in
  let first := extract_multiple_pdfs (inr (JDict d1)) in
  let second := extract_multiple_pdfs (inr (JDict d2)) in
  exists rs1 rs2,
    outcome first = inr (batch_reply rs1 (length us1))
    /\ outcome second = inr (batch_reply rs2 (length us2))
    /\ outcome whole = inr (batch_reply (rs1 ++ rs2) (length us1 + length us2))
    /\ calls (trace whole) = calls (trace first) ++ calls (trace second).
Proof.
  intros Hd Hd1 Hd2 whole first second. subst whole first second.
  exists (map batch_entry us1), (map batch_entry us2).
  rewrite (extract_multiple_run _ _ Hd), (extract_multiple_run _ _ Hd1),
    (extract_multiple_run _ _ Hd2).
  unfold outcome, trace. cbn [fst snd].
  rewrite !batch_calls, flat_map_app, map_app, length_app.
  repeat split.
Qed.

Lemma batch_entry_shapes (url : json) :
  batch_entry url = batch_failure url "Failed to download PDF"
  \/ batch_entry url = batch_failure url "Could not extract readable text"
  \/ (exists t, batch_entry url = batch_success url t).
Proof.
  unfold App.batch_entry.
  destruct (fetch url) as [[|c b]|]; [now left | | now left].
  unfold batch_result.
  destruct (extracted_text (c :: b)) as [t|].
  - destruct (too_short (Some t)).
    + right; now left.
    + right; right; eexists; reflexivity.
  - right; now left.
Qed.

(** X11: whenever the batch endpoint returns results, the reply is 200 with
    [success: true] and [total_processed] equal to their number, and every
    result is a success entry or a failure entry with one of the two
    reasons "Failed to download PDF" and "Could not extract readable
    text". *)
Theorem batch_reply_shape (req : Request) (r : Reply) (rs : list json) :
  outcome (extract_multiple_pdfs req) = inr r ->
  field "results" (body r) = Some (JList rs) ->
  status r = 200%Z
  /\ field "success" (body r) = Some (JBool true)
  /\ field "total_processed" (body r) = Some (JInt (Z.of_nat (length rs)))
  /\ Forall (fun e =>
               exists url,
                 (exists t, e = batch_success url t)
                 \/ e = batch_failure url "Failed to download PDF"
                 \/ e = batch_failure url "Could not extract readable text") rs.
Proof.
  intros Hr Hrs.
  destruct (extract_multiple_total req) as (r' & Hr' & Hcase).
  rewrite Hr in Hr'. injection Hr' as <-.
  destruct Hcase as [-> | [-> | [[x ->] | (d & us & _ & _ & ->)]]];
    try discriminate.
  injection Hrs as <-. rewrite length_map. repeat split.
  apply Forall_forall. intros e He.
  apply in_map_iff in He. destruct He as (url & <- & _).
  exists url. destruct (batch_entry_shapes url) as [-> | [-> | [t ->]]]; eauto.
Qed.

(** X12: the two endpoints agree on a URL: its batch entry is a success
    exactly when /extract-pdf answers 200, with the same [url], [text] and
    [length]; and they report a failed download for the same URLs. *)
Theorem batch_entry_agrees_with_single
    (d d' : list (str * json)) (us : list json) (i : nat) (url : json) :
  dict_get (lit "url") d = Some url ->
  dict_get (lit "urls") d' = Some (JList us) ->
  nth_error us i = Some url ->
  exists r rs e,
    outcome (extract_pdf (inr (JDict d))) = inr r
    /\ outcome (extract_multiple_pdfs (inr (JDict d'))) = inr (batch_reply rs (length us))
    /\ nth_error rs i = Some e
    /\ (status r = 200%Z <-> field "success" e = Some (JBool true))
    /\ field "url" e = field "url" (body r)
    /\ field "text" e = field "text" (body r)
    /\ field "length" e = field "length" (body r)
    /\ (field "error" (body r) = Some (jstr "Failed to download PDF")
        <-> field "error" e = Some (jstr "Failed to download PDF")).
Proof.
  intros Hd Hd' Hi.
  exists (single_reply url), (map batch_entry us), (batch_entry url).
  rewrite (extract_pdf_run _ _ Hd), (extract_multiple_run _ _ Hd').
  unfold outcome. cbn [snd].
  split; [reflexivity|]. split; [reflexivity|].
  split; [now apply entry_at|].
  unfold App.single_reply, App.batch_entry.
  destruct (fetch url) as [[|c b]|];
    try (repeat split; intros; try discriminate; reflexivity).
  unfold single_result, batch_result.
  destruct (extracted_text (c :: b)) as [t|].
  - destruct (too_short (Some t));
      repeat split; intros; try discriminate; reflexivity.
  - repeat split; intros; try discriminate; reflexivity.
Qed.

(** ** The progress records *)

Lemma progress_app (a b : list event) : progress (a ++ b) = progress a ++ progress b.
Proof. apply flat_map_app. Qed.

Lemma progress_fetch (url : json) : progress (fetch_trace url) = [].
Proof.
  unfold App.fetch_trace, trace, App.download_pdf.
  destruct (requests_get url 30) as [e|r]; simpl; [reflexivity|].
  unfold raise_for_status.
  destruct ((400 <=? status_code r)%Z && (status_code r <? 600)%Z); simpl;
    [reflexivity|].
  destruct (negb _); reflexivity.
Qed.

Lemma progress_primary (b : bytes) : progress (primary_trace b) = [].
Proof.
  unfold App.primary_trace, trace, App.extract_text_with_pdfplumber.
  destruct (pdfplumber_open b) as [e|ps]; simpl; [reflexivity|].
  destruct (pages_loop_outcome ps []) as [[e|t] ->]; reflexivity.
Qed.

Lemma progress_fallback (b : bytes) : progress (fallback_trace b) = [].
Proof.
  unfold App.fallback_trace, trace, App.extract_text_with_pypdf2.
  destruct (PyPDF2_PdfReader b) as [e|ps]; simpl; [reflexivity|].
  destruct (pages_loop_outcome ps []) as [[e|t] ->]; reflexivity.
Qed.

Lemma progress_batch (n i : nat) (us : list json) :
  progress (batch_trace n i us)
  = map (fun iu => (fst iu + 1, n, snd iu)) (enumerate i us).
Proof.
  revert i. induction us as [|u rest IH]; intros i; [reflexivity|].
  cbn [App.batch_trace enumerate map fst snd].
  rewrite progress_app, IH. unfold App.iteration_trace.
  change (Log INFO ?m :: ?t) with ([Log INFO m] ++ t).
  rewrite !progress_app, progress_fetch.
  assert (Hrest : progress
                    match fetch u with
                    | Some ((_ :: _) as b) =>
                        primary_trace b ++
                        (if too_short (primary_text b) then fallback_trace b
                         else [])
                    | _ => []
                    end = []).
  { destruct (fetch u) as [[|c b]|]; try reflexivity.
    rewrite progress_app, progress_primary.
    destruct (too_short (primary_text (c :: b))); [|reflexivity].
    now rewrite progress_fallback. }
  rewrite Hrest. reflexivity.
Qed.

(** X13: the batch logs one progress record per URL, in input order, the
    record of the URL at position i (from 0) reading "i+1 / N". *)
Theorem batch_progress_is_numbered (d : list (str * json)) (us : list json) :
  dict_get (lit "urls") d = Some (JList us) ->
  progress (trace (extract_multiple_pdfs (inr (JDict d))))
  = map (fun iu => (fst iu + 1, length us, snd iu)) (enumerate 0 us)
  /\ forall i u, nth_error us i = Some u ->
       nth_error (progress (trace (extract_multiple_pdfs (inr (JDict d))))) i
       = Some (i + 1, length us, u).
Proof.
  intros Hd. rewrite (extract_multiple_run _ _ Hd). unfold trace. cbn [fst].
  rewrite progress_batch. split; [reflexivity|].
  intros i u Hi. rewrite nth_error_map.
  assert (He : forall k l j, nth_error l j = Some u ->
                 nth_error (enumerate k l) j = Some (k + j, u)).
  { intros k l. revert k. induction l as [|x l IH]; intros k j Hj.
    - destruct j; discriminate.
    - destruct j as [|j]; simpl in *.
      + injection Hj as ->. now rewrite Nat.add_0_r.
      + rewrite (IH (S k) j Hj). do 2 f_equal. lia. }
  rewrite (He 0 us i Hi). reflexivity.
Qed.

(** X14: every library call of a batch is owed to a listed URL: each GET is
    for a URL of the list, with timeout 30; each pdfplumber call is on the
    non-empty bytes downloaded from a listed URL; and PyPDF2 is only called
    on bytes pdfplumber was called on. *)
Theorem batch_call_discipline
    (d : list (str * json)) (us : list json) (ev : event) :
  dict_get (lit "urls") d = Some (JList us) ->
  let t := trace (extract_multiple_pdfs (inr (JDict d))) in
  In ev (calls t) ->
  match ev with
  | RequestsGet u timeout => In u us /\ timeout = 30%Z
  | PdfplumberOpen b =>
      b <> [] /\ exists u, In u us /\ outcome (download_pdf u) = inr (Some b)
  | PdfReader b => b <> [] /\ In (PdfplumberOpen b) t
  | Log _ _ => False
  end.
Proof.
  intros Hd t. subst t.
  rewrite (extract_multiple_run _ _ Hd). unfold trace. cbn [fst].
  intros Hin.
  assert (Hback : forall x, In x (flat_map pipeline_calls us) ->
                    In x (batch_trace (length us) 0 us)).
  { intros x Hx. rewrite <- (batch_calls (length us) 0) in Hx.
    now apply In_calls in Hx. }
  rewrite batch_calls in Hin.
  pose proof Hin as Hin'. apply in_flat_map in Hin'.
  destruct Hin' as (u & Hu & Hc).
  assert (Hp : forall b, fetch u = Some b -> b <> [] ->
                 In (PdfplumberOpen b) (flat_map pipeline_calls us)).
  { intros b Hf Hb. apply in_flat_map. exists u. split; [exact Hu|].
    rewrite (pipeline_calls_fetched _ _ Hf Hb). simpl. auto. }
  unfold App.pipeline_calls in Hc. pose proof (download_run u) as Hrun.
  destruct Hc as [<- | Hc]; [now split|].
  destruct (fetch u) as [[|c b]|] eqn:Hf; try contradiction.
  destruct Hc as [<- | Hc].
  - split; [discriminate|]. exists u. split; [exact Hu|]. now rewrite Hrun.
  - destruct (too_short (primary_text (c :: b))); [|contradiction].
    destruct Hc as [<- | []]. split; [discriminate|].
    apply Hback, Hp; [reflexivity | discriminate].
Qed.

(** X15: [download_pdf] returns the bytes [b] exactly when [requests.get]
    returned a response whose status is outside 400..599 and whose body is
    [b]; the headers play no part in the result. *)
Theorem downloaded_bytes_are_the_response_body (url : json) (b : bytes) :
  outcome (download_pdf url) = inr (Some b)
  <-> exists resp,
        requests_get url 30 = inr resp
        /\ ~ (400 <= status_code resp < 600)%Z
        /\ content resp = b.
Proof.
  split.
  - unfold outcome, App.download_pdf.
    destruct (requests_get url 30) as [e|resp]; [discriminate|].
    cbn [bind]. unfold raise_for_status.
    destruct ((400 <=? status_code resp)%Z && (status_code resp <? 600)%Z) eqn:E;
      [discriminate|].
    cbn [bind ret app]. intros H.
    exists resp. repeat split.
    + apply andb_false_iff in E.
      destruct E as [E|E]; [apply Z.leb_gt in E | apply Z.ltb_ge in E]; lia.
    + destruct (negb _); simpl in H; now injection H.
  - intros (resp & Hr & Hs & <-).
    rewrite (download_passed url resp Hr); [reflexivity|].
    unfold outcome, raise_for_status.
    destruct ((400 <=? status_code resp)%Z && (status_code resp <? 600)%Z) eqn:E;
      [|reflexivity].
    apply andb_true_iff in E. destruct E as [E1 E2].
    apply Z.leb_le in E1. apply Z.ltb_lt in E2. lia.
Qed.

End Properties.

(** * The sample deployment, run *)

Lemma primary_text_wins_else_fallback_witness :
  outcome (Sample.extract_pdf (Sample.post [("url", Sample.report)]))
  = inr (single_success Sample.report Sample.report_text)
  /\ calls (trace (Sample.extract_pdf (Sample.post [("url", Sample.report)])))
     = [RequestsGet Sample.report 30; PdfplumberOpen (Sample.pdf Byte.x01)]
  /\ calls (trace (Sample.extract_pdf (Sample.post [("url", Sample.scan)])))
     = [RequestsGet Sample.scan 30; PdfplumberOpen (Sample.pdf Byte.x02);
        PdfReader (Sample.pdf Byte.x02)]
  /\ exists n, outcome (Sample.extract_pdf (Sample.post [("url", Sample.scan)]))
               = inr (single_unreadable Sample.scan n).
Proof.
  destruct (world_call primary_text_wins_else_fallback
              [(lit "url", Sample.report)]
              [(lit "urls", JList [Sample.gone; Sample.report])]
              [Sample.gone; Sample.report] 1 Sample.report (Sample.pdf Byte.x01))
    as [H1 _]; try reflexivity; [discriminate|].
  destruct (H1 Sample.report_text) as (_ & Hs & _ & Hc & _);
    [reflexivity | vm_compute; lia |].
  destruct (world_call primary_text_wins_else_fallback
              [(lit "url", Sample.scan)]
              [(lit "urls", JList [Sample.scan])]
              [Sample.scan] 0 Sample.scan (Sample.pdf Byte.x02))
    as [_ H2]; try reflexivity; [discriminate|].
  destruct (H2 (Some (lit "123456789"))) as (Hc2 & _ & H3);
    [reflexivity | reflexivity |].
  destruct (H3 (Some (lit "ab"))) as (Hn & _); [reflexivity | reflexivity |].
  repeat split; assumption.
Defined.

Lemma success_requires_ten_characters_witness :
  (exists url t,
      single_success Sample.report Sample.report_text = single_success url t
      /\ 10 <= length (strip t) /\ t <> [])
  /\ (exists n, outcome (Sample.extract_pdf (Sample.post [("url", Sample.scan)]))
                = inr (single_unreadable Sample.scan n)).
Proof.
  destruct (world_call success_requires_ten_characters) as (H1 & _ & H3).
  split.
  - apply (H1 (Sample.post [("url", Sample.report)])); [reflexivity | now left].
  - destruct (H3 [(lit "url", Sample.scan)] [(lit "urls", JList [Sample.scan])]
                [Sample.scan] 0 Sample.scan (Sample.pdf Byte.x02)) as [Hn _];
      try reflexivity; [discriminate | exact Hn].
Defined.

Lemma batch_covers_every_url_witness :
  let us := [Sample.report; Sample.gone; Sample.page_html; JInt 3] in
  let batch := Sample.extract_multiple_pdfs (Sample.post [("urls", JList us)]) in
  exists (r : Reply) (rs : list json),
    outcome batch = inr r
    /\ field "total_processed" (body r) = Some (JInt 4)
    /\ length rs = 4
    /\ gets (trace batch) = us.
Proof.
  intros us batch.
  destruct (world_call batch_covers_every_url [(lit "urls", JList us)] us eq_refl)
    as (r & rs & Hr & _ & _ & Ht & Hl & _ & Hg).
  exists r, rs. repeat split; assumption.
Defined.

(** C4, as stated, fails on the single-URL endpoint: for a document neither
    extractor can read, its reason is not "Could not extract readable
    text". *)
Lemma single_endpoint_reason_differs :
  let b := Sample.pdf Byte.x03 in
  outcome (download_pdf Sample.requests_get Sample.page_html) = inr (Some b)
  /\ outcome (extract_text_with_pdfplumber Sample.pdfplumber_open b) = inr None
  /\ outcome (extract_text_with_pypdf2 Sample.PyPDF2_PdfReader b) = inr None
  /\ exists r,
       outcome (Sample.extract_pdf (Sample.post [("url", Sample.page_html)])) = inr r
       /\ field "error" (body r)
          = Some (jstr "Could not extract readable text from PDF")
       /\ field "error" (body r) <> Some (jstr "Could not extract readable text").
Proof.
  repeat split. eexists. repeat split. discriminate.
Qed.

Lemma unreadable_document_reasons_witness :
  outcome (Sample.extract_pdf (Sample.post [("url", Sample.page_html)]))
  = inr (single_unreadable Sample.page_html 0)
  /\ exists rs,
       outcome (Sample.extract_multiple_pdfs
                  (Sample.post [("urls", JList [Sample.report; Sample.page_html])]))
       = inr (batch_reply rs 2)
       /\ nth_error rs 1
          = Some (batch_failure Sample.page_html "Could not extract readable text").
Proof.
  apply (world_call unreadable_document_reasons
           [(lit "url", Sample.page_html)]
           [(lit "urls", JList [Sample.report; Sample.page_html])]
           [Sample.report; Sample.page_html] 1 Sample.page_html
           (Sample.pdf Byte.x03) None None);
    try reflexivity; discriminate.
Defined.

Lemma missing_or_ill_typed_parameter_witness :
  outcome (Sample.extract_pdf (Sample.post [("link", Sample.report)]))
  = inr (bad_request "Missing 'url' parameter")
  /\ outcome (Sample.extract_multiple_pdfs (Sample.post [("urls", jstr "not-an-array")]))
     = inr (bad_request "'urls' should be an array").
Proof.
  destruct (world_call missing_or_ill_typed_parameter) as (_ & H1 & H2).
  split.
  - unfold Sample.extract_pdf, Sample.post, dict. cbn [map fst snd].
    now rewrite H1.
  - unfold Sample.extract_multiple_pdfs, Sample.post, dict. cbn [map fst snd].
    now rewrite (H2 _ (jstr "not-an-array")).
Defined.

Lemma fetcher_contract_witness :
  outcome (download_pdf Sample.requests_get Sample.slow) = inr None
  /\ outcome (download_pdf Sample.requests_get Sample.gone) = inr None
  /\ outcome (Sample.extract_pdf (Sample.post [("url", Sample.slow)]))
     = inr (single_download_failed Sample.slow)
  /\ download_pdf Sample.requests_get Sample.page_html
     = ([RequestsGet Sample.page_html 30;
         Log WARNING (ContentTypeNotPdf "text/html")],
        inr (Some (Sample.pdf Byte.x03)))
  /\ In (PdfplumberOpen (Sample.pdf Byte.x03))
        (trace (Sample.extract_pdf (Sample.post [("url", Sample.page_html)]))).
Proof.
  destruct (world_call fetcher_contract Sample.slow) as (_ & H1 & _ & H3 & _).
  destruct (world_call fetcher_contract Sample.gone) as (_ & _ & H2 & _).
  destruct (world_call fetcher_contract Sample.page_html) as (_ & _ & _ & _ & H4).
  split; [|split; [|split; [|split]]].
  - now rewrite (H1 Sample.timed_out eq_refl).
  - destruct (H2 Sample.gone_response eq_refl) as [e ->];
      [simpl; lia | reflexivity].
  - apply (H3 [(lit "url", Sample.slow)]); reflexivity.
  - apply (H4 Sample.page_response eq_refl); simpl; lia.
  - apply (H4 Sample.page_response eq_refl)
      with (d := [(lit "url", Sample.page_html)]);
      [simpl; lia | reflexivity | discriminate].
Defined.

Lemma extractors_join_pages_and_swallow_errors_witness :
  outcome (extract_text_with_pdfplumber Sample.pdfplumber_open (Sample.pdf Byte.x01))
  = inr (Some Sample.report_text)
  /\ outcome (extract_text_with_pdfplumber Sample.pdfplumber_open (Sample.pdf Byte.x04))
     = inr None
  /\ outcome (extract_text_with_pypdf2 Sample.PyPDF2_PdfReader (Sample.pdf Byte.x03))
     = inr None.
Proof.
  destruct (extractors_join_pages_and_swallow_errors
              Sample.pdfplumber_open Sample.PyPDF2_PdfReader (Sample.pdf Byte.x01))
    as [(H1 & _) _].
  destruct (extractors_join_pages_and_swallow_errors
              Sample.pdfplumber_open Sample.PyPDF2_PdfReader (Sample.pdf Byte.x04))
    as [(_ & _ & H2 & _) _].
  destruct (extractors_join_pages_and_swallow_errors
              Sample.pdfplumber_open Sample.PyPDF2_PdfReader (Sample.pdf Byte.x03))
    as [_ (_ & H3 & _)].
  split; [|split].
  - apply (H1 [Some (lit "Annual report 2023 "); None; Some [];
               Some (lit "Revenue grew.")]).
    reflexivity.
  - apply (H2 [Some (lit "Title")] (Exn "PDFSyntaxError" (lit "bad xref")) []).
    reflexivity.
  - apply (H3 (Exn "PdfReadError" (lit "EOF marker not found"))). reflexivity.
Defined.

(** C8, as stated, fails: a body that is not parseable JSON is answered 500
    by both endpoints. *)
Lemma unparseable_body_is_answered_500 :
  (exists r, outcome (Sample.extract_pdf (inl Sample.bad_json)) = inr r
             /\ status r = 500%Z /\ status r <> 400%Z)
  /\ (exists r, outcome (Sample.extract_multiple_pdfs (inl Sample.bad_json)) = inr r
                /\ status r = 500%Z /\ status r <> 400%Z).
Proof.
  split; eexists; repeat split; discriminate.
Qed.

Lemma body_validation_400_parse_failure_500_witness :
  outcome (Sample.extract_pdf (inr JNull))
  = inr (bad_request "Missing 'url' parameter")
  /\ outcome (Sample.extract_multiple_pdfs (Sample.post [("url", Sample.report)]))
     = inr (bad_request "Missing 'urls' parameter (should be array)")
  /\ outcome (Sample.extract_multiple_pdfs (Sample.post [("urls", Sample.report)]))
     = inr (bad_request "'urls' should be an array")
  /\ outcome (Sample.extract_pdf (inl Sample.bad_json))
     = inr (internal_error Sample.bad_json).
Proof.
  destruct (world_call body_validation_400_parse_failure_500)
    as (H1 & _ & H3 & H4 & H5).
  split; [|split; [|split]].
  - apply (H1 JNull). reflexivity.
  - apply (H3 [(lit "url", Sample.report)]). reflexivity.
  - apply (H4 [(lit "urls", Sample.report)] Sample.report); reflexivity.
  - apply (H5 Sample.bad_json).
Defined.

Lemma empty_body_is_a_download_failure_witness :
  outcome (Sample.extract_pdf (Sample.post [("url", Sample.empty)]))
  = inr (single_download_failed Sample.empty)
  /\ calls (trace (Sample.extract_pdf (Sample.post [("url", Sample.empty)])))
     = [RequestsGet Sample.empty 30].
Proof.
  destruct (world_call empty_body_is_a_download_failure
              [(lit "url", Sample.empty)]
              [(lit "urls", JList [Sample.report; Sample.empty])]
              [Sample.report; Sample.empty] 1 Sample.empty
              Sample.empty_response)
    as (H1 & H2 & _); try reflexivity.
  split; assumption.
Defined.

Lemma fallback_replaces_primary_witness :
  outcome (Sample.extract_pdf (Sample.post [("url", Sample.scan)]))
  = inr (single_unreadable Sample.scan 2)
  /\ length (lit "ab") < length (lit "123456789").
Proof.
  destruct (world_call fallback_replaces_primary
              [(lit "url", Sample.scan)]
              [(lit "urls", JList [Sample.scan])]
              [Sample.scan] 0 Sample.scan (Sample.pdf Byte.x02)
              (Some (lit "123456789")) (Some (lit "ab")))
    as (H1 & _ & H3 & _); try reflexivity; [discriminate|].
  split; [|vm_compute; lia].
  transitivity (@inr exn Reply (single_result Sample.scan (Some (lit "ab"))));
    [exact H1 | f_equal; apply H3; reflexivity].
Defined.

Lemma non_object_body_status_witness :
  answers (Sample.extract_pdf (inr (JInt 5))) 500
  /\ answers (Sample.extract_pdf (inr (JList [jstr "url"]))) 500
  /\ answers (Sample.extract_pdf (inr (JList [jstr "link"]))) 400
  /\ answers (Sample.extract_multiple_pdfs (inr (jstr "see the urls below"))) 500.
Proof.
  destruct (world_call non_object_body_status) as (H1 & H2 & H3).
  split; [|split; [|split]].
  - apply (H1 (JInt 5)); [reflexivity | exact I].
  - apply (H2 [jstr "url"]). discriminate.
  - apply (H2 [jstr "link"]). discriminate.
  - apply (H3 (lit "see the urls below")). discriminate.
Defined.

Lemma reported_lengths_witness :
  (10 <= 33)%Z
  /\ exists t, field "text" (body (single_success Sample.report Sample.report_text))
               = Some (JStr t)
               /\ 33%Z = Z.of_nat (length t) /\ strip t = t.
Proof.
  destruct (world_call reported_lengths) as [H _].
  destruct (H (Sample.post [("url", Sample.report)])
              (single_success Sample.report Sample.report_text) eq_refl)
    as [Hl _].
  apply (Hl 33%Z). reflexivity.
Defined.

Lemma extractor_text_has_no_surrounding_whitespace_witness :
  strip Sample.report_text = Sample.report_text
  /\ (forall c r, Sample.report_text = c :: r -> isspace c = false)
  /\ (forall c r, Sample.report_text = r ++ [c] -> isspace c = false).
Proof.
  apply (extractor_text_has_no_surrounding_whitespace
           Sample.pdfplumber_open Sample.PyPDF2_PdfReader (Sample.pdf Byte.x01)).
  left. reflexivity.
Defined.

Lemma extraction_keeps_page_content_witness :
  exists a t z,
    outcome (extract_text_with_pdfplumber Sample.pdfplumber_open (Sample.pdf Byte.x01))
    = inr (Some t)
    /\ lit "Annual report 2023 " ++ newline ++ lit "Revenue grew." = a ++ t ++ z
    /\ blank a = true /\ blank z = true.
Proof.
  destruct (extraction_keeps_page_content
              Sample.pdfplumber_open Sample.PyPDF2_PdfReader (Sample.pdf Byte.x01)
              [Some (lit "Annual report 2023 "); None; Some [];
               Some (lit "Revenue grew.")]) as [H _].
  apply H. reflexivity.
Defined.

Lemma blank_document_is_unreadable_witness :
  extract_text_with_pdfplumber Blank.pdfplumber_open (Sample.pdf Byte.x01)
  = ([PdfplumberOpen (Sample.pdf Byte.x01)], inr (Some []))
  /\ outcome (App.extract_pdf Sample.requests_get Blank.pdfplumber_open
                Blank.PyPDF2_PdfReader (Sample.post [("url", Sample.report)]))
     = inr (single_unreadable Sample.report 0).
Proof.
  destruct (blank_document_is_unreadable
              Sample.requests_get Blank.pdfplumber_open Blank.PyPDF2_PdfReader
              (Sample.pdf Byte.x01) Blank.pages [] [(lit "url", Sample.report)]
              Sample.report) as (H1 & _ & H3); try reflexivity.
  - intros t Ht. simpl in Ht.
    repeat (destruct Ht as [Ht|Ht];
            [try discriminate; injection Ht as <-; reflexivity|]).
    contradiction.
  - intros t [].
  - split; [exact H1|]. apply H3; [reflexivity | reflexivity | discriminate].
Defined.

Lemma batch_of_concatenation_witness :
  exists rs1 rs2,
    outcome (Sample.extract_multiple_pdfs (Sample.post [("urls", JList [Sample.report])]))
    = inr (batch_reply rs1 1)
    /\ outcome (Sample.extract_multiple_pdfs
                  (Sample.post [("urls", JList [Sample.gone; Sample.scan])]))
       = inr (batch_reply rs2 2)
    /\ outcome (Sample.extract_multiple_pdfs
                  (Sample.post [("urls", JList [Sample.report; Sample.gone; Sample.scan])]))
       = inr (batch_reply (rs1 ++ rs2) 3).
Proof.
  destruct (world_call batch_of_concatenation
              [(lit "urls", JList [Sample.report; Sample.gone; Sample.scan])]
              [(lit "urls", JList [Sample.report])]
              [(lit "urls", JList [Sample.gone; Sample.scan])]
              [Sample.report] [Sample.gone; Sample.scan] eq_refl eq_refl eq_refl)
    as (rs1 & rs2 & H1 & H2 & H3 & _).
  exists rs1, rs2. repeat split; assumption.
Defined.

Lemma batch_reply_shape_witness :
  let us := [Sample.report; Sample.gone; Sample.page_html] in
  let r := batch_reply
             [batch_success Sample.report Sample.report_text;
              batch_failure Sample.gone "Failed to download PDF";
              batch_failure Sample.page_html "Could not extract readable text"] 3 in
  outcome (Sample.extract_multiple_pdfs (Sample.post [("urls", JList us)])) = inr r
  /\ field "total_processed" (body r) = Some (JInt 3).
Proof.
  intros us r. split; [reflexivity|].
  destruct (world_call batch_reply_shape
              (Sample.post [("urls", JList us)]) r
              [batch_success Sample.report Sample.report_text;
               batch_failure Sample.gone "Failed to download PDF";
               batch_failure Sample.page_html "Could not extract readable text"]
              eq_refl eq_refl) as (_ & _ & H & _).
  exact H.
Defined.

Lemma batch_entry_agrees_with_single_witness :
  exists r rs e,
    outcome (Sample.extract_pdf (Sample.post [("url", Sample.legacy)])) = inr r
    /\ outcome (Sample.extract_multiple_pdfs
                  (Sample.post [("urls", JList [Sample.gone; Sample.legacy])]))
       = inr (batch_reply rs 2)
    /\ nth_error rs 1 = Some e
    /\ field "text" e = field "text" (body r)
    /\ field "length" e = field "length" (body r).
Proof.
  destruct (world_call batch_entry_agrees_with_single
              [(lit "url", Sample.legacy)]
              [(lit "urls", JList [Sample.gone; Sample.legacy])]
              [Sample.gone; Sample.legacy] 1 Sample.legacy eq_refl eq_refl eq_refl)
    as (r & rs & e & H1 & H2 & H3 & _ & _ & H4 & H5 & _).
  exists r, rs, e. repeat split; assumption.
Defined.

Lemma batch_progress_is_numbered_witness :
  progress (trace (Sample.extract_multiple_pdfs
                     (Sample.post [("urls", JList [Sample.report; Sample.gone; JInt 3])])))
  = [(1, 3, Sample.report); (2, 3, Sample.gone); (3, 3, JInt 3)].
Proof.
  destruct (world_call batch_progress_is_numbered
              [(lit "urls", JList [Sample.report; Sample.gone; JInt 3])]
              [Sample.report; Sample.gone; JInt 3] eq_refl) as [H _].
  exact H.
Defined.

Lemma batch_call_discipline_witness :
  In (PdfplumberOpen (Sample.pdf Byte.x02))
     (trace (Sample.extract_multiple_pdfs
               (Sample.post [("urls", JList [Sample.report; Sample.scan])]))).
Proof.
  apply (world_call batch_call_discipline
           [(lit "urls", JList [Sample.report; Sample.scan])]
           [Sample.report; Sample.scan] (PdfReader (Sample.pdf Byte.x02)) eq_refl).
  vm_compute. auto 10.
Defined.

Lemma downloaded_bytes_are_the_response_body_witness :
  exists resp,
    Sample.requests_get Sample.report 30 = inr resp
    /\ ~ (400 <= status_code resp < 600)%Z
    /\ content resp = Sample.pdf Byte.x01.
Proof.
  apply (downloaded_bytes_are_the_response_body
           Sample.requests_get Sample.report (Sample.pdf Byte.x01)).
  reflexivity.
Defined.

Lemma single_request_call_discipline_witness :
  calls (trace (Sample.extract_pdf (Sample.post [("link", Sample.report)]))) = []
  /\ exists o,
       outcome (download_pdf Sample.requests_get Sample.scan) = inr o
       /\ match o with
          | None | Some [] =>
              calls (trace (Sample.extract_pdf (Sample.post [("url", Sample.scan)])))
              = [RequestsGet Sample.scan 30]
          | Some b =>
              exists r,
                outcome (extract_text_with_pdfplumber Sample.pdfplumber_open b) = inr r
                /\ calls (trace (Sample.extract_pdf (Sample.post [("url", Sample.scan)])))
                   = RequestsGet Sample.scan 30 :: PdfplumberOpen b ::
                     (if too_short r then [PdfReader b] else [])
          end.
Proof.
  split.
  - destruct (world_call single_request_call_discipline
                (Sample.post [("link", Sample.report)])) as [H _].
    apply H. intros d v [= <-]. discriminate.
  - destruct (world_call single_request_call_discipline
                (Sample.post [("url", Sample.scan)])) as [_ H].
    apply (H [(lit "url", Sample.scan)] Sample.scan); reflexivity.
Defined.


(** C6, as stated, fails: 300 is not a success status, yet the fetcher
    returns the body of such a response and /extract-pdf goes on to extract
    it instead of answering "Failed to download PDF". *)
Lemma non_success_status_can_pass :
  Choices.requests_get Choices.link 30 = inr Choices.response
  /\ status_code Choices.response = 300%Z
  /\ outcome (download_pdf Choices.requests_get Choices.link)
     = inr (Some (content Choices.response))
  /\ exists r,
       outcome (Choices.extract_pdf (Sample.post [("url", Choices.link)])) = inr r
       /\ r = single_success Choices.link Sample.report_text
       /\ field "error" (body r) <> Some (jstr "Failed to download PDF").
Proof.
  repeat split. eexists. repeat split. discriminate.
Qed.
